(** * MaLDReTH Streamlit application: data layer and lifecycle layout

    A shallow embedding of [streamlit_app.py]: the CSV seed import
    ([import_tool_data]), the read queries ([load_tool_categories],
    [load_tools], [search_tools]) and the layout generator
    ([create_lifecycle_visualization]), together with the parts of Python's
    [str], of the [sqlite3] module and of SQLite's SQL that these functions
    rely on.

    Conventions.
    - A Python [str] is a [string]; a character is an [ascii], read as a code
      point below 256.
    - Python [int]s and SQLite INTEGERs are [Z]; Python floats are binary64
      primitive floats.
    - A table is the list of its rows in rowid order. *)

From Stdlib Require Import ZArith List Bool Ascii String Lia.
From Stdlib Require Import Sorting.Sorted Sorting.Permutation.
From Stdlib Require Import Floats.
From Stdlib Require Import DecimalString.
Import ListNotations.

Set Warnings "-inexact-float".
Local Open Scope Z_scope.
Local Open Scope string_scope.

(* ================================================================== *)
(** * Python strings *)
(* ================================================================== *)

Module PyStr.

(** [str.isspace] on one character: TAB, LF, VT, FF, CR, the separators
    FS, GS, RS, US, the space, NEL (0x85) and the no-break space (0xA0). *)
Definition isspace (c : ascii) : bool :=
  let n := nat_of_ascii c in
  ((9 <=? n) && (n <=? 13) || (28 <=? n) && (n <=? 32)
   || (n =? 133) || (n =? 160))%nat.

(** Truth value of a [str]: the empty string is the only falsy one. *)
Definition truthy (s : string) : bool :=
  match s with EmptyString => false | String _ _ => true end.

Fixpoint lstrip (s : string) : string :=
  match s with
  | EmptyString => EmptyString
  | String c s' => if isspace c then lstrip s' else s
  end.

Fixpoint rstrip (s : string) : string :=
  match s with
  | EmptyString => EmptyString
  | String c s' =>
      match rstrip s' with
      | EmptyString => if isspace c then EmptyString else String c EmptyString
      | r => String c r
      end
  end.

(** [s.strip()] *)
Definition strip (s : string) : string := rstrip (lstrip s).

(** [s.split(sep)] for a one-character separator: never the empty list. *)
Fixpoint split (sep : ascii) (s : string) : list string :=
  match s with
  | EmptyString => [EmptyString]
  | String c s' =>
      if Ascii.eqb c sep then EmptyString :: split sep s'
      else match split sep s' with
           | [] => [String c EmptyString]
           | w :: ws => String c w :: ws
           end
  end.

End PyStr.

(* ================================================================== *)
(** * SQLite: LIKE, ORDER BY and rowids *)
(* ================================================================== *)

Module Sqlite.

(** SQLite folds case for the 26 ASCII letters only. *)
Definition tolower (c : ascii) : ascii :=
  let n := nat_of_ascii c in
  if ((65 <=? n) && (n <=? 90))%nat then ascii_of_nat (n + 32) else c.

Definition char_eq_nocase (c d : ascii) : bool :=
  Ascii.eqb (tolower c) (tolower d).

(** The LIKE function reads both operands as NUL-terminated text. *)
Fixpoint cstr (s : string) : string :=
  match s with
  | EmptyString => EmptyString
  | String c s' => if Ascii.eqb c Ascii.zero then EmptyString else String c (cstr s')
  end.

(** LIKE without ESCAPE: [%] matches any run of characters, [_] any one
    character, every other character matches itself up to ASCII case. *)
Fixpoint pattern_compare (p s : string) : bool :=
  match p with
  | EmptyString =>
      match s with EmptyString => true | String _ _ => false end
  | String c p' =>
      if Ascii.eqb c "%" then
        (fix any (s : string) : bool :=
           pattern_compare p' s
           || match s with
              | EmptyString => false
              | String _ s' => any s'
              end) s
      else
        match s with
        | EmptyString => false
        | String d s' =>
            (Ascii.eqb c "_" || char_eq_nocase c d) && pattern_compare p' s'
        end
  end.

(** [text LIKE pattern] *)
Definition like (text pattern : string) : bool :=
  pattern_compare (cstr pattern) (cstr text).

(** ORDER BY: a stable sort of the scanned rows by the ordering terms. *)
Section OrderBy.
Context {A : Type} (leb : A -> A -> bool).

Fixpoint insert (x : A) (l : list A) : list A :=
  match l with
  | [] => [x]
  | y :: l' => if leb x y then x :: l else y :: insert x l'
  end.

Fixpoint order_by (l : list A) : list A :=
  match l with
  | [] => []
  | x :: l' => insert x (order_by l')
  end.
End OrderBy.

(** Two ordering terms: the first decides, the second breaks its ties. *)
Definition by_int_then {A : Type} (k : A -> Z) (leb : A -> A -> bool)
    (a b : A) : bool :=
  if (k a <? k b)%Z then true
  else if (k a =? k b)%Z then leb a b else false.

(** A text ordering term under the BINARY collation. *)
Definition by_text {A : Type} (k : A -> string) (a b : A) : bool :=
  String.leb (k a) (k b).

(** The rowid an INSERT without an explicit id receives: 1 in an empty
    table, otherwise one more than the largest rowid in use. This is
    SQLite's rule as long as the largest rowid in use is below
    9223372036854775807; once that rowid is in use SQLite tries unused
    rowids at random, which is outside this definition: the properties that
    depend on the rowids or on the place of the new rows assume that rowids
    are left below it. *)
Definition next_rowid (ids : list Z) : Z :=
  match ids with
  | [] => 1
  | i :: rest => fold_left Z.max rest i + 1
  end.

End Sqlite.

(* ================================================================== *)
(** * Data model *)
(* ================================================================== *)

(** Modelled from the spec: [resources/schema.sql] is not part of the
    sources. The four tables carry the columns the spec's data model and the
    queries name; every [id] is an INTEGER PRIMARY KEY, so an INSERT that
    names no id receives [Sqlite.next_rowid]; text columns hold text. *)

Module Stage.
Record t := mk
  { id : Z; name : string; description : string; order_index : Z }.
End Stage.

Module Connection.
Record t := mk
  { from_stage_id : Z; to_stage_id : Z; connection_type : string }.
End Connection.

Module ToolCategory.
Record t := mk
  { id : Z; stage_id : Z; name : string; description : string }.
End ToolCategory.

Module Tool.
Record t := mk
  { id : Z; category_id : Z; name : string; description : string }.
End Tool.

Record Database := mkDatabase
  { stages : list Stage.t;
    connections : list Connection.t;
    tool_categories : list ToolCategory.t;
    tools : list Tool.t }.

(* ================================================================== *)
(** * Exceptions and the [sqlite3] connection *)
(* ================================================================== *)

Inductive Exception :=
| AttributeError   (* [.strip()] on a value that is not a [str] *)
| IndexError       (* list index out of range *)
| OverflowError    (* an [int] too large for an SQLite INTEGER *)
| ReadError.       (* [pd.read_csv] failed *)

Inductive Result (A : Type) :=
| Ok (a : A)
| Raise (e : Exception).
Arguments Ok {A} a.
Arguments Raise {A} e.

(** A [sqlite3.Connection] in the default (deferred) transaction mode:
    [file] is the committed content of the database file, [view] is what
    the connection reads and writes (the file plus its own open
    transaction), [last_insert_rowid] is SQLite's per-connection value, 0
    until the connection has inserted. *)
Record SqliteConn := mkConn
  { file : Database;
    view : Database;
    last_insert_rowid : Z }.

(** [sqlite3.connect(db_path)] *)
Definition connect (db : Database) : SqliteConn :=
  {| file := db; view := db; last_insert_rowid := 0 |}.

Definition commit (conn : SqliteConn) : SqliteConn :=
  {| file := view conn; view := view conn;
     last_insert_rowid := last_insert_rowid conn |}.

Definition rollback (conn : SqliteConn) : SqliteConn :=
  {| file := file conn; view := file conn;
     last_insert_rowid := last_insert_rowid conn |}.

(** Code that runs against a connection and may raise: the connection
    state reached is kept when an exception leaves the code. *)
Definition Sql (A : Type) : Type := SqliteConn -> Result A * SqliteConn.

Definition ret {A : Type} (a : A) : Sql A := fun conn => (Ok a, conn).

Definition raise {A : Type} (e : Exception) : Sql A :=
  fun conn => (Raise e, conn).

Definition bind {A B : Type} (m : Sql A) (k : A -> Sql B) : Sql B :=
  fun conn =>
    match m conn with
    | (Ok a, conn') => k a conn'
    | (Raise e, conn') => (Raise e, conn')
    end.

Notation "x <- m ;; k" := (bind m (fun x => k))
  (at level 61, m at next level, right associativity).
Notation "m ;;; k" := (bind m (fun _ => k))
  (at level 61, right associativity).

(** [for x in xs: body(x)] *)
Fixpoint for_each {A : Type} (xs : list A) (body : A -> Sql unit) : Sql unit :=
  match xs with
  | [] => ret tt
  | x :: xs' => body x ;;; for_each xs' body
  end.

(** [with conn: body]: the context manager commits when the body ends
    normally and rolls back when an exception leaves it; the exception is
    not swallowed. *)
Definition with_connection {A : Type} (conn : SqliteConn) (body : Sql A)
    : Result A * SqliteConn :=
  match body conn with
  | (Ok a, conn') => (Ok a, commit conn')
  | (Raise e, conn') => (Raise e, rollback conn')
  end.

(** A cursor as the import uses it: the ids a SELECT produced and
    [lastrowid]. [execute] sets [lastrowid] from the connection's
    [last_insert_rowid] after every statement, a SELECT included. *)
Record Cursor := mkCursor
  { fetched : list Z;
    lastrowid : Z }.

Definition fetchone (c : Cursor) : option Z := hd_error (fetched c).

(** [conn.execute("SELECT id FROM stages WHERE name = ?", (stage_name,))] *)
Definition select_stage_id (stage_name : string) : Sql Cursor :=
  fun conn =>
    (Ok {| fetched :=
             map Stage.id
               (filter (fun s => Stage.name s =? stage_name)
                  (stages (view conn)));
           lastrowid := last_insert_rowid conn |},
     conn).

(** [conn.execute("INSERT INTO tool_categories (stage_id, name,
    description) VALUES (?, ?, ?)", ...)] *)
Definition insert_tool_category (stage_id : Z) (name description : string)
    : Sql Cursor :=
  fun conn =>
    let db := view conn in
    let rowid :=
      Sqlite.next_rowid (map ToolCategory.id (tool_categories db)) in
    (Ok {| fetched := []; lastrowid := rowid |},
     {| file := file conn;
        view :=
          {| stages := stages db;
             connections := connections db;
             tool_categories :=
               tool_categories db
               ++ [ToolCategory.mk rowid stage_id name description];
             tools := tools db |};
        last_insert_rowid := rowid |}).

(** [conn.execute("INSERT INTO tools (category_id, name, description)
    VALUES (?, ?, ?)", ...)] *)
Definition insert_tool (category_id : Z) (name description : string)
    : Sql Cursor :=
  fun conn =>
    let db := view conn in
    let rowid := Sqlite.next_rowid (map Tool.id (tools db)) in
    (Ok {| fetched := []; lastrowid := rowid |},
     {| file := file conn;
        view :=
          {| stages := stages db;
             connections := connections db;
             tool_categories := tool_categories db;
             tools :=
               tools db ++ [Tool.mk rowid category_id name description] |};
        last_insert_rowid := rowid |}).

(* ================================================================== *)
(** * CSV seed import *)
(* ================================================================== *)

(** A cell of the frame [pd.read_csv] returns: text, NaN (an empty cell)
    or a number (a cell of a numeric column). *)
Inductive Value :=
| VStr (s : string)
| VNaN
| VInt (z : Z).

(** A row of the frame, as [df.iterrows()] yields it: column label to cell. *)
Definition Series : Type := list (string * Value).
Definition DataFrame : Type := list Series.

(** [row.get(key, default)] *)
Fixpoint get (row : Series) (key : string) (default : Value) : Value :=
  match row with
  | [] => default
  | (k, v) :: row' => if k =? key then v else get row' key default
  end.

(** [v.strip()]: only a [str] has the method. *)
Definition strip (v : Value) : Sql string :=
  match v with
  | VStr s => ret (PyStr.strip s)
  | VNaN | VInt _ => raise AttributeError
  end.

(** The body of [for tool_name in tools.split(',')]. *)
Definition import_tool (category_id : Z) (category_name tool_name : string)
    : Sql unit :=
  let tool_name := PyStr.strip tool_name in
  if PyStr.truthy tool_name then
    insert_tool category_id tool_name ("Example tool for " ++ category_name) ;;;
    ret tt
  else ret tt.

(** The body of [for _, row in df.iterrows()]; [continue] is [ret tt]. *)
Definition import_row (row : Series) : Sql unit :=
  stage_name <- strip (get row "RESEARCH DATA LIFECYCLE STAGE" (VStr "")) ;;
  category_name <- strip (get row "TOOL CATEGORY TYPE" (VStr "")) ;;
  description <- strip (get row "DESCRIPTION (1 SENTENCE)" (VStr "")) ;;
  tools <- strip (get row "EXAMPLES" (VStr "")) ;;
  if negb (PyStr.truthy stage_name) || negb (PyStr.truthy category_name)
  then ret tt
  else
    cursor <- select_stage_id stage_name ;;
    match fetchone cursor with
    | None => ret tt
    | Some stage_id =>
        insert_tool_category stage_id category_name description ;;;
        let category_id := lastrowid cursor in
        for_each (PyStr.split "," tools)
          (import_tool category_id category_name)
    end.

(** [import_tool_data(db_path, csv_path)]: [db] is the content of the
    database file, [csv] what [pd.read_csv(csv_path)] does. The result is the
    content of the file afterwards and the exception [st.error] reports, if
    any. *)
Definition import_tool_data (db : Database) (csv : Result DataFrame)
    : Database * option Exception :=
  match csv with
  | Raise e => (db, Some e)
  | Ok df =>
      match with_connection (connect db) (for_each df import_row) with
      | (Ok _, conn) => (file conn, None)
      | (Raise e, conn) => (file conn, Some e)
      end
  end.

(* ================================================================== *)
(** * Read queries *)
(* ================================================================== *)

(** Truth value of an optional id: [None] and 0 are falsy. *)
Definition truthy (id : option Z) : bool :=
  match id with
  | None => false
  | Some z => negb (z =? 0)%Z
  end.

(** [load_tool_categories(stage_id=None)] against the database [db]: the
    rows returned for a [stage_id] that SQLite can hold, such as the id of a
    row. [call_load_tool_categories] adds what binding the parameter does to
    any other [int]. *)
Definition load_tool_categories (db : Database) (stage_id : option Z)
    : list ToolCategory.t :=
  match stage_id with
  | Some sid =>
      if truthy stage_id then
        Sqlite.order_by (Sqlite.by_text ToolCategory.name)
          (filter (fun c => (ToolCategory.stage_id c =? sid)%Z)
             (tool_categories db))
      else
        Sqlite.order_by
          (Sqlite.by_int_then ToolCategory.stage_id
             (Sqlite.by_text ToolCategory.name))
          (tool_categories db)
  | None =>
      Sqlite.order_by
        (Sqlite.by_int_then ToolCategory.stage_id
           (Sqlite.by_text ToolCategory.name))
        (tool_categories db)
  end.

(** [load_tools(category_id=None)] against the database [db]: the rows
    returned for a [category_id] that SQLite can hold, such as the id of a
    row. [call_load_tools] adds what binding the parameter does to any other
    [int]. *)
Definition load_tools (db : Database) (category_id : option Z)
    : list Tool.t :=
  match category_id with
  | Some cid =>
      if truthy category_id then
        Sqlite.order_by (Sqlite.by_text Tool.name)
          (filter (fun t => (Tool.category_id t =? cid)%Z) (tools db))
      else
        Sqlite.order_by
          (Sqlite.by_int_then Tool.category_id (Sqlite.by_text Tool.name))
          (tools db)
  | None =>
      Sqlite.order_by
        (Sqlite.by_int_then Tool.category_id (Sqlite.by_text Tool.name))
        (tools db)
  end.

(** A row of the search result: [t.*] and the four aliased columns. *)
Module SearchRow.
Record t := mk
  { id : Z; category_id : Z; name : string; description : string;
      category_name : string; stage_name : string; stage_id : Z }.
End SearchRow.

(** [tools t JOIN tool_categories c ON t.category_id = c.id
     JOIN stages s ON c.stage_id = s.id] *)
Definition joined (db : Database)
    : list (Tool.t * ToolCategory.t * Stage.t) :=
  flat_map (fun t =>
    flat_map (fun c =>
      if (Tool.category_id t =? ToolCategory.id c)%Z then
        flat_map (fun s =>
          if (ToolCategory.stage_id c =? Stage.id s)%Z then [(t, c, s)]
          else [])
          (stages db)
      else [])
      (tool_categories db))
    (tools db).

(** [ORDER BY s.order_index, c.name, t.name] *)
Definition search_order (a b : Tool.t * ToolCategory.t * Stage.t) : bool :=
  let '(ta, ca, sa) := a in
  let '(tb, cb, sb) := b in
  if (Stage.order_index sa <? Stage.order_index sb)%Z then true
  else if (Stage.order_index sa =? Stage.order_index sb)%Z then
    match String.compare (ToolCategory.name ca) (ToolCategory.name cb) with
    | Lt => true
    | Eq => String.leb (Tool.name ta) (Tool.name tb)
    | Gt => false
    end
  else false.

Definition search_row (r : Tool.t * ToolCategory.t * Stage.t) : SearchRow.t :=
  let '(t, c, s) := r in
  {| SearchRow.id := Tool.id t;
     SearchRow.category_id := ToolCategory.id c;
     SearchRow.name := Tool.name t;
     SearchRow.description := Tool.description t;
     SearchRow.category_name := ToolCategory.name c;
     SearchRow.stage_name := Stage.name s;
     SearchRow.stage_id := Stage.id s |}.

(** [search_tools(query)] against the database [db]: the rows returned
    for a query whose pattern [%query%] SQLite accepts, that is, one of at
    most 50000 bytes; on a longer pattern the LIKE operator raises instead
    of matching. *)
Definition search_tools (db : Database) (query : string)
    : list SearchRow.t :=
  if negb (PyStr.truthy query) then []
  else
    let search_pattern := "%" ++ query ++ "%" in
    map search_row
      (Sqlite.order_by search_order
         (filter (fun r : Tool.t * ToolCategory.t * Stage.t =>
                    let '(t, _, _) := r in
                    Sqlite.like (Tool.name t) search_pattern
                    || Sqlite.like (Tool.description t) search_pattern)
            (joined db))).

(* ================================================================== *)
(** * Lifecycle layout *)
(* ================================================================== *)

(** [float(z)] for an [int] below 2^63 in magnitude. *)
Definition float_of_int (z : Z) : float :=
  match z with
  | Z0 => PrimFloat.of_uint63 (Uint63.of_Z 0)
  | Zpos _ => PrimFloat.of_uint63 (Uint63.of_Z z)
  | Zneg _ => PrimFloat.opp (PrimFloat.of_uint63 (Uint63.of_Z (- z)))
  end.

(** [l[i]] on a Python list: a negative index counts from the end. *)
Definition index {A : Type} (l : list A) (i : Z) : Result A :=
  let n := Z.of_nat (List.length l) in
  let j := if (i <? 0)%Z then (i + n)%Z else i in
  if (j <? 0)%Z then Raise IndexError
  else
    match nth_error l (Z.to_nat j) with
    | Some a => Ok a
    | None => Raise IndexError
    end.

Definition bindR {A B : Type} (r : Result A) (k : A -> Result B) : Result B :=
  match r with
  | Ok a => k a
  | Raise e => Raise e
  end.

Notation "x <~ r ;; k" := (bindR r (fun x => k))
  (at level 61, r at next level, right associativity).

Definition radius : Z := 1.

(** [range(n_stages)] *)
Definition range (n : nat) : list Z := map Z.of_nat (seq 0 n).

(** [[i * 2 * 3.14159 / n_stages for i in range(n_stages)]] *)
Definition angles (n_stages : nat) : list float :=
  map (fun i =>
         (float_of_int (i * 2) * 3.14159
          / float_of_int (Z.of_nat n_stages))%float)
    (range n_stages).

(** [[radius * 0.8 * -1 * (-1) ** (i % 2) for i in range(n_stages)]] *)
Definition x_positions (n_stages : nat) : list float :=
  map (fun i =>
         (float_of_int radius * 0.8 * float_of_int (-1)
          * float_of_int ((-1) ^ (i mod 2)))%float)
    (range n_stages).

(** [[radius * (-1) ** (i % 2) for i in range(n_stages)]] *)
Definition y_positions (n_stages : nat) : list Z :=
  map (fun i => (radius * (-1) ^ (i mod 2))%Z) (range n_stages).

(** The [line] argument of a connection trace. *)
Record LineStyle := mkLine
  { line_color : string; line_width : Z; dash : option string }.

(** The traces of the figure, in the order [fig.add_trace] receives them. *)
Inductive Trace :=
| Lines (x : list float) (y : list Z) (line : LineStyle)
| Marker (x : list float) (y : list Z) (size : Z) (color : string)
    (text : string) (customdata : list Z) (hovertext : string).

Definition Figure : Type := list Trace.

(** The body of [for conn in connections]: the trace it adds, if any. *)
Definition connection_trace (n_stages : nat) (xs : list float) (ys : list Z)
    (conn : Connection.t) : Result (option Trace) :=
  let from_id := (Connection.from_stage_id conn - 1)%Z in
  let to_id := (Connection.to_stage_id conn - 1)%Z in
  if (from_id <? Z.of_nat n_stages)%Z && (to_id <? Z.of_nat n_stages)%Z then
    let line_style :=
      {| line_color := "rgba(120, 120, 120, 0.6)";
         line_width := 1;
         dash := if Connection.connection_type conn =? "alternative"
                 then Some "dash" else None |} in
    x0 <~ index xs from_id ;;
    x1 <~ index xs to_id ;;
    y0 <~ index ys from_id ;;
    y1 <~ index ys to_id ;;
    Ok (Some (Lines [x0; x1] [y0; y1] line_style))
  else Ok None.

Fixpoint add_connections (n_stages : nat) (xs : list float) (ys : list Z)
    (connections : list Connection.t) : Result Figure :=
  match connections with
  | [] => Ok []
  | conn :: rest =>
      t <~ connection_trace n_stages xs ys conn ;;
      fig <~ add_connections n_stages xs ys rest ;;
      Ok (match t with Some tr => tr :: fig | None => fig end)
  end.

(** The body of [for i, stage in enumerate(stages)]. *)
Definition stage_node (xs : list float) (ys : list Z)
    (selected_stage : option Z) (i : Z) (stage : Stage.t) : Result Trace :=
  let selected :=
    truthy selected_stage
    && match selected_stage with
       | Some sel => (Stage.id stage =? sel)%Z
       | None => false
       end in
  let color :=
    if selected then "rgba(90, 159, 23, 1)" else "rgba(122, 193, 66, 0.8)" in
  let size := if selected then 30%Z else 25%Z in
  x <~ index xs i ;;
  y <~ index ys i ;;
  Ok (Marker [x] [y] size color (Stage.name stage) [Stage.id stage]
        (Stage.description stage)).

Fixpoint add_stages (xs : list float) (ys : list Z)
    (selected_stage : option Z) (i : Z) (stages : list Stage.t)
    : Result Figure :=
  match stages with
  | [] => Ok []
  | stage :: rest =>
      t <~ stage_node xs ys selected_stage i stage ;;
      fig <~ add_stages xs ys selected_stage (i + 1) rest ;;
      Ok (t :: fig)
  end.

(** [create_lifecycle_visualization(stages, connections, selected_stage)]:
    the traces of the returned figure, or the exception raised. *)
Definition create_lifecycle_visualization (stages : list Stage.t)
    (connections : list Connection.t) (selected_stage : option Z)
    : Result Figure :=
  let n_stages := List.length stages in
  let xs := x_positions n_stages in
  let ys := y_positions n_stages in
  lines <~ add_connections n_stages xs ys connections ;;
  nodes <~ add_stages xs ys selected_stage 0 stages ;;
  Ok (lines ++ nodes)%list.

(* ================================================================== *)
(** * More of the read queries and the search page *)
(* ================================================================== *)

(** [load_stages()] against the database [db]:
    [SELECT * FROM stages ORDER BY order_index]. *)
Definition load_stages (db : Database) : list Stage.t :=
  Sqlite.order_by
    (fun a b => (Stage.order_index a <=? Stage.order_index b)%Z)
    (stages db).

(** [load_connections()] against the database [db]:
    [SELECT * FROM connections], the rows as the table holds them. *)
Definition load_connections (db : Database) : list Connection.t :=
  connections db.

(** Binding an [int] as a parameter of [execute]: SQLite INTEGERs are
    signed 64-bit, an [int] outside that range raises OverflowError. *)
Definition bind_int (z : Z) : Result Z :=
  if (- 2 ^ 63 <=? z)%Z && (z <? 2 ^ 63)%Z then Ok z else Raise OverflowError.

(** [load_tool_categories(stage_id)] as a call that may raise: a truthy
    [stage_id] is bound to the filtered query. *)
Definition call_load_tool_categories (db : Database) (stage_id : option Z)
    : Result (list ToolCategory.t) :=
  match stage_id with
  | Some sid =>
      if truthy stage_id then
        bound <~ bind_int sid ;;
        Ok (load_tool_categories db (Some bound))
      else Ok (load_tool_categories db stage_id)
  | None => Ok (load_tool_categories db stage_id)
  end.

(** [load_tools(category_id)] as a call that may raise: a truthy
    [category_id] is bound to the filtered query. *)
Definition call_load_tools (db : Database) (category_id : option Z)
    : Result (list Tool.t) :=
  match category_id with
  | Some cid =>
      if truthy category_id then
        bound <~ bind_int cid ;;
        Ok (load_tools db (Some bound))
      else Ok (load_tools db category_id)
  | None => Ok (load_tools db category_id)
  end.

(** What a page shows, in the order of the [st.*] calls. *)
Inductive Element :=
| TextInput (label placeholder : string)
| Subheader (body : string)
| Info (body : string)
| Expander (label : string) (expanded : bool)
    (dataframe : list (string * string * string)).

(** A [dict] from text to lists, in insertion order. [dict_append d k v]
    is [if k not in d: d[k] = []] followed by [d[k].append(v)]. *)
Fixpoint dict_append {A : Type} (d : list (string * list A)) (k : string)
    (v : A) : list (string * list A) :=
  match d with
  | [] => [(k, [v])]
  | (k', vs) :: d' =>
      if k' =? k then (k', (vs ++ [v])%list) :: d'
      else (k', vs) :: dict_append d' k v
  end.

(** The loop [for result in results] of [render_search]. *)
Definition results_by_stage (results : list SearchRow.t)
    : list (string * list SearchRow.t) :=
  fold_left (fun d result => dict_append d (SearchRow.stage_name result) result)
    results [].

(** [str(n)] for the length of a list. *)
Definition str (n : nat) : string := NilEmpty.string_of_uint (Nat.to_uint n).

(** The rows of the frame built for one stage:
    Tool, Category, Description. *)
Definition stage_frame (tools : list SearchRow.t)
    : list (string * string * string) :=
  map (fun tool =>
         (SearchRow.name tool, SearchRow.category_name tool,
          SearchRow.description tool))
    tools.

(** [render_search()] against the database [db], for the text [query]
    that the input field returns. *)
Definition render_search (db : Database) (query : string) : list Element :=
  TextInput "Search for tools:" "Enter tool name..."
  :: (if PyStr.truthy query then
        let results := search_tools db query in
        match results with
        | _ :: _ =>
            Subheader ("Search Results for '" ++ query ++ "'")
            :: map (fun group : string * list SearchRow.t =>
                      let '(stage_name, tools) := group in
                      Expander
                        (stage_name ++ " (" ++ str (List.length tools)
                         ++ " tools)")
                        true (stage_frame tools))
                 (results_by_stage results)
        | [] => [Info ("No tools found matching '" ++ query ++ "'")]
        end
      else []).

(* ================================================================== *)
(** * Vocabulary of the properties *)
(* ================================================================== *)

(** Rows in ascending order of a text column. *)
Definition ordered_by {A : Type} (k : A -> string) (l : list A) : Prop :=
  StronglySorted (fun a b => String.leb (k a) (k b) = true) l.

(** [q] is a prefix of [s] up to the case of ASCII letters. *)
Fixpoint prefix_nocase (q s : string) : bool :=
  match q, s with
  | EmptyString, _ => true
  | String _ _, EmptyString => false
  | String c q', String d s' =>
      Sqlite.char_eq_nocase c d && prefix_nocase q' s'
  end.

(** [q] occurs in [s] as a substring up to the case of ASCII letters. *)
Fixpoint contains_nocase (q s : string) : bool :=
  prefix_nocase q s
  || match s with
     | EmptyString => false
     | String _ s' => contains_nocase q s'
     end.

(** A query that holds no LIKE wildcard ([%], [_]) and no NUL. *)
Fixpoint plain (q : string) : bool :=
  match q with
  | EmptyString => true
  | String c q' =>
      negb (Ascii.eqb c "%") && negb (Ascii.eqb c "_")
      && negb (Ascii.eqb c Ascii.zero) && plain q'
  end.

(** The two fixed coordinate pairs of the layout. *)
Definition zigzag_x (i : nat) : float :=
  if Nat.even i then (-0.8)%float else (0.8)%float.

Definition zigzag_y (i : nat) : Z :=
  if Nat.even i then 1 else -1.

(** A CSV row with text in the four columns the import reads. *)
Definition csv_row (stage category description examples : Value) : Series :=
  [("RESEARCH DATA LIFECYCLE STAGE", stage);
   ("TOOL CATEGORY TYPE", category);
   ("DESCRIPTION (1 SENTENCE)", description);
   ("EXAMPLES", examples)].

(** ** Concrete databases and inputs *)

(** A freshly created store that holds the stage "Collect" and no
    category or tool yet. *)
Definition collect_db : Database :=
  {| stages := [Stage.mk 1 "Collect" "Gathering data" 1];
     connections := [];
     tool_categories := [];
     tools := [] |}.

(** [stage="Collect", category="Acquisition", examples="ToolA, ToolB"] *)
Definition acquisition_row : Series :=
  csv_row (VStr "Collect") (VStr "Acquisition")
    (VStr "Tools that acquire data") (VStr "ToolA, ToolB").

(** A row whose stage cell is empty in the CSV: the frame holds NaN. *)
Definition empty_stage_row : Series :=
  csv_row VNaN (VStr "Acquisition") (VStr "Tools that acquire data")
    (VStr "ToolA").

(** Two stages, one category and one tool, with ids counted from 1. *)
Definition lifecycle_db : Database :=
  {| stages :=
       [Stage.mk 1 "Conceptualise" "Formulating the idea" 1;
        Stage.mk 2 "Plan" "Planning the work" 2];
     connections := [Connection.mk 1 2 "normal"];
     tool_categories :=
       [ToolCategory.mk 1 2 "Data management planning" "DMP tools"];
     tools := [Tool.mk 1 1 "DMPTool" "Writes plans"] |}.

(** The same content with ids counted from 0. *)
Definition zero_based_db : Database :=
  {| stages :=
       [Stage.mk 0 "Conceptualise" "Formulating the idea" 0;
        Stage.mk 1 "Plan" "Planning the work" 1];
     connections := [Connection.mk 0 1 "normal"];
     tool_categories :=
       [ToolCategory.mk 0 0 "Mind mapping" "Idea tools";
        ToolCategory.mk 1 1 "Data management planning" "DMP tools"];
     tools := [Tool.mk 0 1 "DMPTool" "Writes plans"] |}.

Definition two_stages : list Stage.t := stages lifecycle_db.

(** The style of a connection line: dashed for 'alternative', solid for
    every other type, 'normal' included. *)
Definition line_of (conn : Connection.t) : LineStyle :=
  {| line_color := "rgba(120, 120, 120, 0.6)";
     line_width := 1;
     dash := if Connection.connection_type conn =? "alternative"
             then Some "dash" else None |}.

(** The code [m] leaves the committed content of the file as it is. *)
Definition preserves_file {A : Type} (m : Sql A) : Prop :=
  forall conn, file (snd (m conn)) = file conn.

(** A CSV whose second row has an empty stage cell. *)
Definition interrupted_csv : DataFrame := [acquisition_row; empty_stage_row].

(** The tool names of an EXAMPLES cell: the non-empty stripped pieces. *)
Definition example_names (examples : string) : list string :=
  filter PyStr.truthy (map PyStr.strip (PyStr.split "," examples)).

(** The tools table after one tool row per name has been appended, each
    with the given category_id. *)
Fixpoint append_tools (category_id : Z) (category_name : string)
    (table : list Tool.t) (names : list string) : list Tool.t :=
  match names with
  | [] => table
  | name :: names' =>
      append_tools category_id category_name
        (table
         ++ [Tool.mk (Sqlite.next_rowid (map Tool.id table)) category_id name
               ("Example tool for " ++ category_name)])
        names'
  end.

(** ** Vocabulary of the import *)

Definition is_text (v : Value) : bool :=
  match v with VStr _ => true | VNaN | VInt _ => false end.

(** The four cells that the import reads hold text (or their column is
    absent). *)
Definition text_row (row : Series) : bool :=
  is_text (get row "RESEARCH DATA LIFECYCLE STAGE" (VStr ""))
  && is_text (get row "TOOL CATEGORY TYPE" (VStr ""))
  && is_text (get row "DESCRIPTION (1 SENTENCE)" (VStr ""))
  && is_text (get row "EXAMPLES" (VStr "")).

(** The stripped text of a cell; the empty text for an absent column. *)
Definition field (row : Series) (key : string) : string :=
  match get row key (VStr "") with
  | VStr s => PyStr.strip s
  | VNaN | VInt _ => ""
  end.

(** The id of the first stage with the given name. *)
Definition find_stage (table : list Stage.t) (name : string) : option Z :=
  hd_error (map Stage.id (filter (fun s => Stage.name s =? name) table)).

(** What a row of text cells asks to insert: the stage id, the category
    name and description, and the tool names; nothing when the stage or the
    category name is blank or no stage has the stage name. *)
Definition row_insert (table : list Stage.t) (row : Series)
    : option (Z * string * string * list string) :=
  if PyStr.truthy (field row "RESEARCH DATA LIFECYCLE STAGE")
     && PyStr.truthy (field row "TOOL CATEGORY TYPE")
  then
    match find_stage table (field row "RESEARCH DATA LIFECYCLE STAGE") with
    | Some stage_id =>
        Some (stage_id, field row "TOOL CATEGORY TYPE",
              field row "DESCRIPTION (1 SENTENCE)",
              example_names (field row "EXAMPLES"))
    | None => None
    end
  else None.

(** The columns of a category row and of a tool row that the import
    chooses by itself. *)
Definition category_payload (c : ToolCategory.t) : Z * string * string :=
  (ToolCategory.stage_id c, ToolCategory.name c, ToolCategory.description c).

Definition tool_payload (t : Tool.t) : string * string :=
  (Tool.name t, Tool.description t).

Definition category_of (table : list Stage.t) (row : Series)
    : list (Z * string * string) :=
  match row_insert table row with
  | Some (stage_id, category, description, _) =>
      [(stage_id, category, description)]
  | None => []
  end.

Definition tools_of (table : list Stage.t) (row : Series)
    : list (string * string) :=
  match row_insert table row with
  | Some (_, category, _, names) =>
      map (fun name => (name, "Example tool for " ++ category)) names
  | None => []
  end.

(** The view of the database after one row of text cells, on a connection
    whose [last_insert_rowid] is [last]. *)
Definition view_after_row (last : Z) (db : Database) (row : Series)
    : Database :=
  match row_insert (stages db) row with
  | Some (stage_id, category, description, names) =>
      {| stages := stages db;
         connections := connections db;
         tool_categories :=
           (tool_categories db
            ++ [ToolCategory.mk
                  (Sqlite.next_rowid
                     (map ToolCategory.id (tool_categories db)))
                  stage_id category description])%list;
         tools := append_tools last category (tools db) names |}
  | None => db
  end.

(** ** Vocabulary of the queries *)

(** A text without NUL. *)
Fixpoint nul_free (s : string) : bool :=
  match s with
  | EmptyString => true
  | String c s' => negb (Ascii.eqb c Ascii.zero) && nul_free s'
  end.

(** Two texts that differ in the case of ASCII letters only. *)
Fixpoint same_nocase (q q' : string) : bool :=
  match q, q' with
  | EmptyString, EmptyString => true
  | String c r, String c' r' => Sqlite.char_eq_nocase c c' && same_nocase r r'
  | _, _ => false
  end.

(** ** Vocabulary of the figure *)

(** Both stage ids of the connection are at most [n]. *)
Definition in_range (n : nat) (conn : Connection.t) : bool :=
  (Connection.from_stage_id conn <=? Z.of_nat n)%Z
  && (Connection.to_stage_id conn <=? Z.of_nat n)%Z.

(** The connection passes the guard of the layout for [n] stages, and one
    of its indices lies before the start of the list even when counted
    from the end. *)
Definition out_of_list (n : nat) (conn : Connection.t) : bool :=
  in_range n conn
  && ((Connection.from_stage_id conn <=? - Z.of_nat n)%Z
      || (Connection.to_stage_id conn <=? - Z.of_nat n)%Z).

(** The line between the zig-zag positions of the two stages of a
    connection. *)
Definition connection_line (conn : Connection.t) : Trace :=
  let i := Z.to_nat (Connection.from_stage_id conn - 1) in
  let j := Z.to_nat (Connection.to_stage_id conn - 1) in
  Lines [zigzag_x i; zigzag_x j] [zigzag_y i; zigzag_y j] (line_of conn).

(** The stage is the selected one: the selection is truthy and is its
    id. *)
Definition is_selected (selected : option Z) (stage : Stage.t) : bool :=
  match selected with
  | Some id => negb (id =? 0)%Z && (Stage.id stage =? id)%Z
  | None => false
  end.

(** The marker of the stage of index [i]. *)
Definition stage_marker (selected : option Z) (i : nat) (stage : Stage.t)
    : Trace :=
  Marker [zigzag_x i] [zigzag_y i]
    (if is_selected selected stage then 30%Z else 25%Z)
    (if is_selected selected stage then "rgba(90, 159, 23, 1)"
     else "rgba(122, 193, 66, 0.8)")
    (Stage.name stage) [Stage.id stage] (Stage.description stage).

Fixpoint stage_markers (selected : option Z) (i : nat) (stages : list Stage.t)
    : list Trace :=
  match stages with
  | [] => []
  | stage :: rest =>
      stage_marker selected i stage :: stage_markers selected (S i) rest
  end.

(** ** Vocabulary of the search page *)

(** The rows of all the tables a page shows, in order. *)
Definition frames (page : list Element) : list (string * string * string) :=
  flat_map (fun e =>
              match e with
              | Expander _ _ dataframe => dataframe
              | TextInput _ _ | Subheader _ | Info _ => []
              end)
    page.

(** [d] groups the rows [p] by [key]: its keys are distinct, the list of
    a key holds the rows of that key in their order and is not empty, and
    every row has its key in [d]. *)
Definition grouped {A : Type} (key : A -> string)
    (d : list (string * list A)) (p : list A) : Prop :=
  NoDup (map fst d)
  /\ (forall k rows,
        In (k, rows) d ->
        rows = filter (fun r => key r =? k) p /\ rows <> [])
  /\ (forall r, In r p -> In (key r) (map fst d)).

(** Rows in ascending order of an integer column, and of a text column
    among the rows that agree on the integer column. *)
Definition ordered_by_int_then_text {A : Type} (k : A -> Z)
    (name : A -> string) (l : list A) : Prop :=
  StronglySorted
    (fun a b =>
       (k a < k b)%Z \/ (k a = k b /\ String.leb (name a) (name b) = true))
    l.

(** ** Vocabulary of the limits of SQLite *)

(** The largest rowid. *)
Definition max_rowid : Z := 9223372036854775807.

(** A table with the rowids [ids] has room for [n] more rows: the [n]
    rowids that follow the largest one in use do not exceed [max_rowid]. *)
Definition room (ids : list Z) (n : nat) : Prop :=
  (Sqlite.next_rowid ids + Z.of_nat n <= max_rowid + 1)%Z.

(** The two tables have room for the rows that the CSV asks to insert. *)
Definition import_has_room (db : Database) (df : DataFrame) : Prop :=
  room (map ToolCategory.id (tool_categories db))
    (List.length (flat_map (category_of (stages db)) df))
  /\ room (map Tool.id (tools db))
       (List.length (flat_map (tools_of (stages db)) df)).

(** The number of bytes of a text in UTF-8, a character being a code
    point below 256. *)
Fixpoint utf8_length (s : string) : Z :=
  match s with
  | EmptyString => 0
  | String c s' =>
      (if (nat_of_ascii c <? 128)%nat then 1 else 2) + utf8_length s'
  end.

(** A store that holds the stage "Collect" with a category and a tool. *)
Definition instruments_db : Database :=
  {| stages := [Stage.mk 1 "Collect" "Gathering data" 1];
     connections := [];
     tool_categories := [ToolCategory.mk 1 1 "Instruments" "Lab devices"];
     tools := [Tool.mk 1 1 "Sensor" "Measures"] |}.

(* ================================================================== *)
(** * Facts about the Python string operations *)
(* ================================================================== *)

Example strip_spaces : PyStr.strip "  ToolB " = "ToolB".
Proof. reflexivity. Qed.

Example strip_blank : PyStr.strip "   " = "".
Proof. reflexivity. Qed.

Example split_examples : PyStr.split "," "ToolA, ToolB" = ["ToolA"; " ToolB"].
Proof. reflexivity. Qed.

Example split_empty : PyStr.split "," "" = [""].
Proof. reflexivity. Qed.

Example split_trailing : PyStr.split "," "a,,b," = ["a"; ""; "b"; ""].
Proof. reflexivity. Qed.

(* ================================================================== *)
(** * Facts about ORDER BY *)
(* ================================================================== *)

Section OrderByFacts.
Context {A : Type} (leb : A -> A -> bool).

Let le (a b : A) : Prop := leb a b = true.

Lemma insert_perm (x : A) (l : list A) :
  Permutation (Sqlite.insert leb x l) (x :: l).
Proof.
  induction l as [|y l IH]; simpl.
  - apply Permutation_refl.
  - destruct (leb x y).
    + apply Permutation_refl.
    + apply Permutation_trans with (y :: x :: l).
      * now apply perm_skip.
      * apply perm_swap.
Qed.

Lemma order_by_perm (l : list A) : Permutation (Sqlite.order_by leb l) l.
Proof.
  induction l as [|x l IH]; simpl.
  - apply perm_nil.
  - apply Permutation_trans with (x :: Sqlite.order_by leb l).
    + apply insert_perm.
    + now apply perm_skip.
Qed.

Lemma order_by_In (l : list A) (a : A) :
  In a (Sqlite.order_by leb l) <-> In a l.
Proof.
  split; apply Permutation_in.
  - apply order_by_perm.
  - apply Permutation_sym, order_by_perm.
Qed.

Hypothesis leb_total : forall a b, leb a b = true \/ leb b a = true.

Lemma insert_hdrel (x a : A) (l : list A) :
  le a x -> HdRel le a l -> HdRel le a (Sqlite.insert leb x l).
Proof.
  intros Hax Hl. destruct l as [|y l]; simpl.
  - now constructor.
  - destruct (leb x y); constructor; trivial.
    now inversion Hl.
Qed.

Lemma insert_sorted (x : A) (l : list A) :
  Sorted le l -> Sorted le (Sqlite.insert leb x l).
Proof.
  induction l as [|y l IH]; simpl; intros Hs.
  - repeat constructor.
  - destruct (leb x y) eqn:Hxy.
    + constructor; [exact Hs | now constructor].
    + inversion Hs as [|? ? Hs' Hhd]; subst.
      constructor.
      * now apply IH.
      * apply insert_hdrel; trivial.
        destruct (leb_total x y) as [H|H]; [congruence | exact H].
Qed.

Lemma order_by_sorted (l : list A) : Sorted le (Sqlite.order_by leb l).
Proof.
  induction l as [|x l IH]; simpl.
  - constructor.
  - now apply insert_sorted.
Qed.

Hypothesis leb_trans :
  forall a b c, leb a b = true -> leb b c = true -> leb a c = true.

Lemma order_by_strongly_sorted (l : list A) :
  StronglySorted le (Sqlite.order_by leb l).
Proof.
  apply Sorted_StronglySorted.
  - intros a b c. apply leb_trans.
  - apply order_by_sorted.
Qed.
End OrderByFacts.

(** The BINARY collation is a total preorder on text. *)
Lemma string_compare_trans (s1 s2 s3 : string) :
  String.compare s1 s2 <> Gt -> String.compare s2 s3 <> Gt ->
  String.compare s1 s3 <> Gt.
Proof.
  revert s2 s3.
  induction s1 as [|a s1 IH]; intros [|b s2] [|c s3]; simpl;
    try congruence.
  unfold Ascii.compare.
  destruct (N.compare_spec (N_of_ascii a) (N_of_ascii b));
    destruct (N.compare_spec (N_of_ascii b) (N_of_ascii c));
    destruct (N.compare_spec (N_of_ascii a) (N_of_ascii c));
    try congruence; try lia.
  apply IH.
Qed.

Lemma string_leb_trans (s1 s2 s3 : string) :
  String.leb s1 s2 = true -> String.leb s2 s3 = true ->
  String.leb s1 s3 = true.
Proof.
  unfold String.leb. intros H12 H23.
  pose proof (string_compare_trans s1 s2 s3) as H.
  destruct (String.compare s1 s2); try discriminate;
    destruct (String.compare s2 s3); try discriminate;
    destruct (String.compare s1 s3); trivial;
    exfalso; apply H; congruence.
Qed.

Lemma order_by_text_ordered {A : Type} (k : A -> string) (l : list A) :
  ordered_by k (Sqlite.order_by (Sqlite.by_text k) l).
Proof.
  unfold ordered_by.
  apply (order_by_strongly_sorted (Sqlite.by_text k)).
  - intros a b. apply String.leb_total.
  - intros a b c. apply string_leb_trans.
Qed.

(* ================================================================== *)
(** * The lifecycle layout *)
(* ================================================================== *)

Lemma index_of_nat {A : Type} (l : list A) (i : nat) :
  index l (Z.of_nat i)
  = match nth_error l i with Some a => Ok a | None => Raise IndexError end.
Proof.
  assert (H : (Z.of_nat i <? 0)%Z = false) by (apply Z.ltb_ge; lia).
  unfold index. cbv zeta.
  rewrite H. cbv iota. rewrite H, Nat2Z.id.
  reflexivity.
Qed.

(** A negative index within the list counts from its end. *)
Lemma index_negative {A : Type} (l : list A) (i : Z) :
  (- Z.of_nat (List.length l) <= i < 0)%Z ->
  index l i = index l (i + Z.of_nat (List.length l)).
Proof.
  intros Hi.
  assert (H1 : (i <? 0)%Z = true) by (apply Z.ltb_lt; lia).
  assert (H2 : (i + Z.of_nat (List.length l) <? 0)%Z = false)
    by (apply Z.ltb_ge; lia).
  unfold index. cbv zeta.
  rewrite H1. cbv iota. rewrite !H2. cbv iota.
  reflexivity.
Qed.

Lemma nth_error_range (n i : nat) :
  (i < n)%nat -> nth_error (range n) i = Some (Z.of_nat i).
Proof.
  intros Hi. unfold range.
  rewrite nth_error_map, nth_error_seq.
  apply Nat.ltb_lt in Hi. now rewrite Hi.
Qed.

Lemma index_map_range {A : Type} (f : Z -> A) (n i : nat) :
  (i < n)%nat -> index (map f (range n)) (Z.of_nat i) = Ok (f (Z.of_nat i)).
Proof.
  intros Hi.
  rewrite index_of_nat, nth_error_map, nth_error_range by exact Hi.
  reflexivity.
Qed.

Lemma parity_of_nat (i : nat) :
  (Z.of_nat i mod 2)%Z = if Nat.even i then 0%Z else 1%Z.
Proof.
  destruct (Nat.even i) eqn:E.
  - apply Nat.even_spec in E. destruct E as [k ->].
    rewrite Nat2Z.inj_mul, Z.mul_comm. apply Z_mod_mult.
  - rewrite <- Nat.negb_odd in E. apply negb_false_iff in E.
    apply Nat.odd_spec in E. destruct E as [k ->].
    rewrite Nat2Z.inj_add, Nat2Z.inj_mul, Z.add_comm, Z.mul_comm.
    now rewrite Z_mod_plus_full.
Qed.

Lemma x_positions_at (n i : nat) :
  (i < n)%nat -> index (x_positions n) (Z.of_nat i) = Ok (zigzag_x i).
Proof.
  intros Hi. unfold x_positions.
  rewrite index_map_range by exact Hi.
  rewrite parity_of_nat. unfold zigzag_x.
  destruct (Nat.even i); reflexivity.
Qed.

Lemma y_positions_at (n i : nat) :
  (i < n)%nat -> index (y_positions n) (Z.of_nat i) = Ok (zigzag_y i).
Proof.
  intros Hi. unfold y_positions.
  rewrite index_map_range by exact Hi.
  rewrite parity_of_nat. unfold zigzag_y.
  destruct (Nat.even i); reflexivity.
Qed.

(** The angle of a stage does depend on the number of stages. *)
Example angles_differ :
  index (angles 2) 1 = Ok (3.14159)%float
  /\ index (angles 4) 1 = Ok (1.570795)%float.
Proof. split; reflexivity. Qed.

(** The node loop never raises: every stage gets its marker at the
    coordinates of its index. *)
Lemma add_stages_from (n : nat) (selected : option Z) (stages : list Stage.t)
    (k : nat) :
  (k + List.length stages <= n)%nat ->
  exists fig,
    add_stages (x_positions n) (y_positions n) selected (Z.of_nat k) stages
    = Ok fig
    /\ List.length fig = List.length stages
    /\ forall i stage,
         nth_error stages i = Some stage ->
         exists size color,
           nth_error fig i
           = Some (Marker [zigzag_x (k + i)] [zigzag_y (k + i)] size color
                     (Stage.name stage) [Stage.id stage]
                     (Stage.description stage)).
Proof.
  revert k. induction stages as [|s rest IH]; intros k Hk; simpl in *.
  - exists []. repeat split. intros [|i] stage; discriminate.
  - destruct (IH (S k)) as [fig [Hfig [Hlen Hnth]]]; [lia|].
    unfold stage_node.
    rewrite x_positions_at, y_positions_at by lia. simpl.
    replace (Z.of_nat k + 1)%Z with (Z.of_nat (S k)) by lia.
    rewrite Hfig. simpl.
    eexists. split; [reflexivity|]. split; [simpl; congruence|].
    intros [|i] stage Hs; simpl in *.
    + injection Hs as <-. rewrite Nat.add_0_r. eauto.
    + destruct (Hnth i stage Hs) as [size [color H]].
      exists size, color. rewrite H. now rewrite Nat.add_succ_r.
Qed.

(** The two position lists: for every list of N stages and every index i
    below N, the layout reads for stage i the abscissa -0.8 and the
    ordinate +1 (radius is 1) when i is even, and +0.8 and -1 when i is
    odd, and the node loop draws the marker of stage i there. The
    coordinates depend on the parity of i alone. *)
Theorem positions_alternate (stages : list Stage.t) (i : nat) :
  (i < List.length stages)%nat ->
  index (x_positions (List.length stages)) (Z.of_nat i)
  = Ok (if Nat.even i then (-0.8)%float else (0.8)%float)
  /\ index (y_positions (List.length stages)) (Z.of_nat i)
     = Ok (if Nat.even i then radius else (- radius)%Z)
  /\ (forall selected : option Z,
        exists nodes,
          add_stages (x_positions (List.length stages))
            (y_positions (List.length stages)) selected 0 stages
          = Ok nodes
          /\ forall stage,
               nth_error stages i = Some stage ->
               exists size color,
                 nth_error nodes i
                 = Some (Marker
                           [if Nat.even i then (-0.8)%float else (0.8)%float]
                           [if Nat.even i then radius else (- radius)%Z]
                           size color (Stage.name stage) [Stage.id stage]
                           (Stage.description stage)))
  /\ forall (stages' : list Stage.t) (j : nat),
       (j < List.length stages')%nat -> Nat.even j = Nat.even i ->
       index (x_positions (List.length stages')) (Z.of_nat j)
       = index (x_positions (List.length stages)) (Z.of_nat i)
       /\ index (y_positions (List.length stages')) (Z.of_nat j)
          = index (y_positions (List.length stages)) (Z.of_nat i).
Proof.
  intros Hi. split; [|split; [|split]].
  - now rewrite x_positions_at.
  - now rewrite y_positions_at.
  - intros selected.
    destruct (add_stages_from (List.length stages) selected stages 0)
      as [nodes [Hnodes [_ Hnth]]]; [simpl; lia|].
    exists nodes. split; [exact Hnodes|].
    intros stage Hstage. exact (Hnth i stage Hstage).
  - intros stages' j Hj Hpar. split.
    + rewrite !x_positions_at by assumption. unfold zigzag_x.
      now rewrite Hpar.
    + rewrite !y_positions_at by assumption. unfold zigzag_y.
      now rewrite Hpar.
Qed.

Lemma positions_alternate_witness :
  (1 < List.length two_stages)%nat
  /\ index (x_positions (List.length two_stages)) (Z.of_nat 1)
     = Ok (0.8)%float
  /\ index (y_positions (List.length two_stages)) (Z.of_nat 1) = Ok (-1)%Z.
Proof.
  assert (H : (1 < List.length two_stages)%nat) by (simpl; lia).
  destruct (positions_alternate two_stages 1 H) as [Hx [Hy _]].
  split; [exact H|]. split; [exact Hx | exact Hy].
Defined.

(** A connection between two stages of the list gets its line, between
    the positions of the two stages. *)
Lemma connection_trace_in_bounds (n : nat) (conn : Connection.t) (i j : nat) :
  (i < n)%nat -> (j < n)%nat ->
  Connection.from_stage_id conn = (Z.of_nat i + 1)%Z ->
  Connection.to_stage_id conn = (Z.of_nat j + 1)%Z ->
  connection_trace n (x_positions n) (y_positions n) conn
  = Ok (Some (Lines [zigzag_x i; zigzag_x j] [zigzag_y i; zigzag_y j]
                (line_of conn))).
Proof.
  intros Hi Hj Hfrom Hto. unfold connection_trace.
  rewrite Hfrom, Hto.
  replace (Z.of_nat i + 1 - 1)%Z with (Z.of_nat i) by lia.
  replace (Z.of_nat j + 1 - 1)%Z with (Z.of_nat j) by lia.
  replace (Z.of_nat i <? Z.of_nat n)%Z with true
    by (symmetry; apply Z.ltb_lt; lia).
  replace (Z.of_nat j <? Z.of_nat n)%Z with true
    by (symmetry; apply Z.ltb_lt; lia).
  rewrite !x_positions_at, !y_positions_at by assumption.
  reflexivity.
Qed.

(** A connection one of whose stage ids exceeds the number of stages
    gets no line. *)
Lemma connection_trace_above (n : nat) (xs : list float) (ys : list Z)
    (conn : Connection.t) :
  (Z.of_nat n < Connection.from_stage_id conn
   \/ Z.of_nat n < Connection.to_stage_id conn)%Z ->
  connection_trace n xs ys conn = Ok None.
Proof.
  intros H. unfold connection_trace.
  destruct (Connection.from_stage_id conn - 1 <? Z.of_nat n)%Z eqn:Hf;
    destruct (Connection.to_stage_id conn - 1 <? Z.of_nat n)%Z eqn:Ht;
    simpl; trivial.
  apply Z.ltb_lt in Hf, Ht. lia.
Qed.

(** The guard has no lower bound: a stage id of 0 gives the index -1,
    which passes the guard and reads the last position of the list. *)
Lemma connection_trace_from_zero (n j : nat) (conn : Connection.t) :
  (j < S n)%nat ->
  Connection.from_stage_id conn = 0%Z ->
  Connection.to_stage_id conn = (Z.of_nat j + 1)%Z ->
  connection_trace (S n) (x_positions (S n)) (y_positions (S n)) conn
  = Ok (Some (Lines [zigzag_x n; zigzag_x j] [zigzag_y n; zigzag_y j]
                (line_of conn))).
Proof.
  intros Hj Hfrom Hto. unfold connection_trace.
  rewrite Hfrom, Hto.
  replace (Z.of_nat j + 1 - 1)%Z with (Z.of_nat j) by lia.
  replace (0 - 1 <? Z.of_nat (S n))%Z with true
    by (symmetry; apply Z.ltb_lt; lia).
  replace (Z.of_nat j <? Z.of_nat (S n))%Z with true
    by (symmetry; apply Z.ltb_lt; lia).
  assert (Hx : index (x_positions (S n)) (0 - 1) = Ok (zigzag_x n)).
  { rewrite index_negative.
    - unfold x_positions at 2, range. rewrite !length_map, length_seq.
      replace (0 - 1 + Z.of_nat (S n))%Z with (Z.of_nat n) by lia.
      apply x_positions_at. lia.
    - unfold x_positions, range. rewrite !length_map, length_seq. lia. }
  assert (Hy : index (y_positions (S n)) (0 - 1) = Ok (zigzag_y n)).
  { rewrite index_negative.
    - unfold y_positions at 2, range. rewrite !length_map, length_seq.
      replace (0 - 1 + Z.of_nat (S n))%Z with (Z.of_nat n) by lia.
      apply y_positions_at. lia.
    - unfold y_positions, range. rewrite !length_map, length_seq. lia. }
  rewrite Hx, Hy.
  rewrite x_positions_at, y_positions_at by assumption.
  reflexivity.
Qed.

(** C4, evaluated where it fails. Two stages and the connection from
    stage id 0 to stage id 1: the index -1 of its first end is outside the
    stage list, and yet the figure holds a (solid) line, drawn from the
    position of the last stage to the position of the first one. *)
Theorem connection_from_stage_zero_is_drawn :
  create_lifecycle_visualization two_stages [Connection.mk 0 1 "normal"] None
  = Ok [Lines [(0.8)%float; (-0.8)%float] [-1; 1]%Z
          {| line_color := "rgba(120, 120, 120, 0.6)";
             line_width := 1;
             dash := None |};
        Marker [(-0.8)%float] [1%Z] 25 "rgba(122, 193, 66, 0.8)"
          "Conceptualise" [1%Z] "Formulating the idea";
        Marker [(0.8)%float] [(-1)%Z] 25 "rgba(122, 193, 66, 0.8)"
          "Plan" [2%Z] "Planning the work"].
Proof. vm_compute. reflexivity. Qed.

(** A stage id below 1 - N even stops the whole rendering. *)
Example connection_far_below_raises :
  create_lifecycle_visualization two_stages [Connection.mk (-5) 1 "normal"]
    None
  = Raise IndexError.
Proof. vm_compute. reflexivity. Qed.

(** The example scenario of the layout: two stages and the connection
    (1 -> 2, normal) give one solid line between two distinct positions. *)
Example two_stage_scenario :
  create_lifecycle_visualization two_stages (connections lifecycle_db) None
  = Ok [Lines [(-0.8)%float; (0.8)%float] [1; -1]%Z
          {| line_color := "rgba(120, 120, 120, 0.6)";
             line_width := 1;
             dash := None |};
        Marker [(-0.8)%float] [1%Z] 25 "rgba(122, 193, 66, 0.8)"
          "Conceptualise" [1%Z] "Formulating the idea";
        Marker [(0.8)%float] [(-1)%Z] 25 "rgba(122, 193, 66, 0.8)"
          "Plan" [2%Z] "Planning the work"].
Proof. vm_compute. reflexivity. Qed.

(* ================================================================== *)
(** * The read queries *)
(* ================================================================== *)

Lemma truthy_nonzero (id : Z) : id <> 0%Z -> truthy (Some id) = true.
Proof.
  intros H. simpl. apply negb_true_iff. now apply Z.eqb_neq.
Qed.

Lemma truthy_false (id : option Z) :
  truthy id = false <-> id = None \/ id = Some 0%Z.
Proof.
  destruct id as [z|]; simpl.
  - rewrite negb_false_iff, Z.eqb_eq. split.
    + intros ->. now right.
    + intros [H|H]; [discriminate | now injection H].
  - split; [now left | reflexivity].
Qed.

Lemma load_tool_categories_nonzero (db : Database) (sid : Z) :
  sid <> 0%Z ->
  load_tool_categories db (Some sid)
  = Sqlite.order_by (Sqlite.by_text ToolCategory.name)
      (filter (fun c => (ToolCategory.stage_id c =? sid)%Z)
         (tool_categories db)).
Proof.
  intros H. unfold load_tool_categories. now rewrite truthy_nonzero.
Qed.

Lemma load_tools_nonzero (db : Database) (cid : Z) :
  cid <> 0%Z ->
  load_tools db (Some cid)
  = Sqlite.order_by (Sqlite.by_text Tool.name)
      (filter (fun t => (Tool.category_id t =? cid)%Z) (tools db)).
Proof.
  intros H. unfold load_tools. now rewrite truthy_nonzero.
Qed.

(** C6, as the code has it. For every stage S whose id is not 0,
    [load_tool_categories(S.id)] returns exactly the category rows whose
    stage_id equals S.id, in ascending order of their name. *)
Theorem load_tool_categories_of_stage (db : Database) (S : Stage.t) :
  Stage.id S <> 0%Z ->
  (forall c : ToolCategory.t,
      In c (load_tool_categories db (Some (Stage.id S)))
      <-> In c (tool_categories db) /\ ToolCategory.stage_id c = Stage.id S)
  /\ ordered_by ToolCategory.name
       (load_tool_categories db (Some (Stage.id S))).
Proof.
  intros Hid. rewrite load_tool_categories_nonzero by exact Hid. split.
  - intros c. rewrite order_by_In, filter_In, Z.eqb_eq. reflexivity.
  - apply order_by_text_ordered.
Qed.

Lemma load_tool_categories_of_stage_witness :
  (forall c : ToolCategory.t,
      In c (load_tool_categories lifecycle_db (Some 2%Z))
      <-> In c (tool_categories lifecycle_db)
          /\ ToolCategory.stage_id c = 2%Z)
  /\ ordered_by ToolCategory.name
       (load_tool_categories lifecycle_db (Some 2%Z)).
Proof.
  apply (load_tool_categories_of_stage lifecycle_db
           (Stage.mk 2 "Plan" "Planning the work" 2)).
  simpl. lia.
Defined.

(** A stage whose id is 0: the query for its id returns the category of
    another stage as well. *)
Lemma load_tool_categories_stage_zero :
  In (Stage.mk 0 "Conceptualise" "Formulating the idea" 0)
    (stages zero_based_db)
  /\ load_tool_categories zero_based_db (Some 0%Z)
     = [ToolCategory.mk 0 0 "Mind mapping" "Idea tools";
        ToolCategory.mk 1 1 "Data management planning" "DMP tools"].
Proof.
  split.
  - simpl. now left.
  - reflexivity.
Qed.

(** C7, as the code has it. For every category C whose id is not 0,
    [load_tools(C.id)] returns exactly the tool rows whose category_id
    equals C.id, in ascending order of their name. *)
Theorem load_tools_of_category (db : Database) (C : ToolCategory.t) :
  ToolCategory.id C <> 0%Z ->
  (forall t : Tool.t,
      In t (load_tools db (Some (ToolCategory.id C)))
      <-> In t (tools db) /\ Tool.category_id t = ToolCategory.id C)
  /\ ordered_by Tool.name (load_tools db (Some (ToolCategory.id C))).
Proof.
  intros Hid. rewrite load_tools_nonzero by exact Hid. split.
  - intros t. rewrite order_by_In, filter_In, Z.eqb_eq. reflexivity.
  - apply order_by_text_ordered.
Qed.

Lemma load_tools_of_category_witness :
  (forall t : Tool.t,
      In t (load_tools lifecycle_db (Some 1%Z))
      <-> In t (tools lifecycle_db) /\ Tool.category_id t = 1%Z)
  /\ ordered_by Tool.name (load_tools lifecycle_db (Some 1%Z)).
Proof.
  apply (load_tools_of_category lifecycle_db
           (ToolCategory.mk 1 2 "Data management planning" "DMP tools")).
  simpl. lia.
Defined.

(** A category whose id is 0: the query for its id returns the tool of
    another category. *)
Lemma load_tools_category_zero :
  In (ToolCategory.mk 0 0 "Mind mapping" "Idea tools")
    (tool_categories zero_based_db)
  /\ load_tools zero_based_db (Some 0%Z)
     = [Tool.mk 0 1 "DMPTool" "Writes plans"].
Proof.
  split.
  - simpl. now left.
  - reflexivity.
Qed.

(** A filtered query whose id no row has returns no row. *)
Lemma filtered_query_unmatched (db : Database) (id : Z) :
  id <> 0%Z ->
  ((forall c, In c (tool_categories db) -> ToolCategory.stage_id c <> id) ->
   load_tool_categories db (Some id) = [])
  /\ ((forall t, In t (tools db) -> Tool.category_id t <> id) ->
      load_tools db (Some id) = []).
Proof.
  intros Hid. split; intros Hnone.
  - rewrite load_tool_categories_nonzero by exact Hid.
    replace (filter _ (tool_categories db)) with (@nil ToolCategory.t);
      [reflexivity|].
    symmetry. induction (tool_categories db) as [|c l IH]; simpl; trivial.
    destruct (Z.eqb_spec (ToolCategory.stage_id c) id) as [E|E].
    + exfalso. apply (Hnone c); [now left | exact E].
    + apply IH. intros c' Hc'. apply Hnone. now right.
  - rewrite load_tools_nonzero by exact Hid.
    replace (filter _ (tools db)) with (@nil Tool.t); [reflexivity|].
    symmetry. induction (tools db) as [|t l IH]; simpl; trivial.
    destruct (Z.eqb_spec (Tool.category_id t) id) as [E|E].
    + exfalso. apply (Hnone t); [now left | exact E].
    + apply IH. intros t' Ht'. apply Hnone. now right.
Qed.

Lemma bind_int_fits (z : Z) :
  (- 2 ^ 63 <= z < 2 ^ 63)%Z -> bind_int z = Ok z.
Proof.
  intros [Hlo Hhi]. unfold bind_int.
  apply Z.leb_le in Hlo. apply Z.ltb_lt in Hhi. now rewrite Hlo, Hhi.
Qed.

(** C8, as the code has it. For every id other than 0 that fits in a
    signed 64-bit integer and that no category row has as stage_id (no
    tool row as category_id), the call of [load_tool_categories]
    ([load_tools]) raises nothing and returns the empty list. *)
Theorem unmatched_id_gives_empty (db : Database) (id : Z) :
  id <> 0%Z ->
  (- 2 ^ 63 <= id < 2 ^ 63)%Z ->
  ((forall c, In c (tool_categories db) -> ToolCategory.stage_id c <> id) ->
   call_load_tool_categories db (Some id) = Ok [])
  /\ ((forall t, In t (tools db) -> Tool.category_id t <> id) ->
      call_load_tools db (Some id) = Ok []).
Proof.
  intros Hid Hfits.
  destruct (filtered_query_unmatched db id Hid) as [Hc Ht].
  unfold call_load_tool_categories, call_load_tools.
  rewrite (truthy_nonzero id Hid), (bind_int_fits id Hfits).
  unfold bindR. cbv beta iota.
  split; intros Hnone.
  - now rewrite Hc.
  - now rewrite Ht.
Qed.

Lemma unmatched_id_gives_empty_witness :
  7%Z <> 0%Z
  /\ (- 2 ^ 63 <= 7 < 2 ^ 63)%Z
  /\ call_load_tool_categories lifecycle_db (Some 7%Z) = Ok []
  /\ call_load_tools lifecycle_db (Some 7%Z) = Ok [].
Proof.
  assert (Hid : 7%Z <> 0%Z) by lia.
  assert (Hfits : (- 2 ^ 63 <= 7 < 2 ^ 63)%Z) by lia.
  destruct (unmatched_id_gives_empty lifecycle_db 7 Hid Hfits) as [Hc Ht].
  split; [exact Hid|]. split; [exact Hfits|]. split.
  - apply Hc. simpl. intros c [<-|[]]. simpl. lia.
  - apply Ht. simpl. intros t [<-|[]]. simpl. lia.
Defined.

(** The id 0 matches no row of either table, and both calls return the
    whole table for it. *)
Lemma unmatched_zero_gives_all :
  filter (fun c => (ToolCategory.stage_id c =? 0)%Z)
    (tool_categories lifecycle_db) = []
  /\ call_load_tool_categories lifecycle_db (Some 0%Z)
     = Ok [ToolCategory.mk 1 2 "Data management planning" "DMP tools"]
  /\ filter (fun t => (Tool.category_id t =? 0)%Z) (tools lifecycle_db) = []
  /\ call_load_tools lifecycle_db (Some 0%Z)
     = Ok [Tool.mk 1 1 "DMPTool" "Writes plans"].
Proof. repeat split. Qed.

(** An id beyond the 64-bit range matches no row either, and the calls
    raise. *)
Example unmatched_large_id_raises :
  call_load_tool_categories lifecycle_db (Some (2 ^ 63)%Z)
  = Raise OverflowError
  /\ call_load_tools lifecycle_db (Some (- 2 ^ 63 - 1)%Z) = Raise OverflowError
  /\ call_load_tools lifecycle_db (Some (- 2 ^ 63)%Z) = Ok [].
Proof. repeat split. Qed.

(** C10. A falsy filter value, that is [None] or 0, makes
    [load_tool_categories] and [load_tools] return every row of their
    table: the filter is not applied. *)
Theorem falsy_filter_returns_all (db : Database) (id : option Z) :
  truthy id = false ->
  Permutation (load_tool_categories db id) (tool_categories db)
  /\ Permutation (load_tools db id) (tools db).
Proof.
  intros H. apply truthy_false in H.
  destruct H as [-> | ->]; split; apply order_by_perm.
Qed.

Lemma falsy_filter_returns_all_witness :
  Permutation (load_tool_categories lifecycle_db (Some 0%Z))
    (tool_categories lifecycle_db)
  /\ Permutation (load_tools lifecycle_db (Some 0%Z)) (tools lifecycle_db).
Proof.
  apply (falsy_filter_returns_all lifecycle_db (Some 0%Z)).
  reflexivity.
Defined.

(* ================================================================== *)
(** * The search *)
(* ================================================================== *)

(** How [%] at the head of a pattern consumes the text. *)
Lemma pattern_compare_percent (p s : string) :
  Sqlite.pattern_compare (String "%" p) s
  = Sqlite.pattern_compare p s
    || match s with
       | EmptyString => false
       | String _ s' => Sqlite.pattern_compare (String "%" p) s'
       end.
Proof. destruct s; reflexivity. Qed.

Lemma pattern_compare_plain_prefix (q s : string) :
  plain q = true ->
  Sqlite.pattern_compare (q ++ "%") s = true ->
  prefix_nocase q s = true.
Proof.
  revert s. induction q as [|c q IH]; intros s Hq Hm; [reflexivity|].
  simpl in Hq.
  apply andb_prop in Hq. destruct Hq as [Hq Hplain].
  apply andb_prop in Hq. destruct Hq as [Hq Hnul].
  apply andb_prop in Hq. destruct Hq as [Hpct Hund].
  apply negb_true_iff in Hpct, Hund.
  simpl in Hm. rewrite Hpct in Hm.
  destruct s as [|d s]; [discriminate|].
  rewrite Hund in Hm. simpl in Hm.
  apply andb_prop in Hm. destruct Hm as [Hcd Hm].
  simpl. rewrite Hcd. simpl. now apply IH.
Qed.

Lemma pattern_compare_plain_contains (q s : string) :
  plain q = true ->
  Sqlite.pattern_compare (String "%" (q ++ "%")) s = true ->
  contains_nocase q s = true.
Proof.
  intros Hq. induction s as [|d s IH]; intros Hm;
    rewrite pattern_compare_percent in Hm;
    apply orb_prop in Hm; destruct Hm as [Hm|Hm].
  - simpl. now rewrite (pattern_compare_plain_prefix q "" Hq Hm).
  - discriminate.
  - simpl contains_nocase.
    now rewrite (pattern_compare_plain_prefix q (String d s) Hq Hm).
  - simpl contains_nocase. rewrite (IH Hm). apply orb_true_r.
Qed.

Lemma cstr_plain (q : string) :
  plain q = true -> Sqlite.cstr (q ++ "%") = q ++ "%".
Proof.
  induction q as [|c q IH]; intros Hq; [reflexivity|].
  simpl in Hq.
  apply andb_prop in Hq. destruct Hq as [Hq Hplain].
  apply andb_prop in Hq. destruct Hq as [_ Hnul].
  apply negb_true_iff in Hnul.
  simpl. rewrite Hnul. now rewrite IH.
Qed.

Lemma prefix_nocase_cstr (q s : string) :
  prefix_nocase q (Sqlite.cstr s) = true -> prefix_nocase q s = true.
Proof.
  revert s. induction q as [|c q IH]; intros s H; [reflexivity|].
  destruct s as [|d s]; [discriminate|].
  simpl in H. destruct (Ascii.eqb d Ascii.zero); [discriminate|].
  simpl in H. apply andb_prop in H. destruct H as [Hcd H].
  simpl. rewrite Hcd. simpl. now apply IH.
Qed.

Lemma contains_nocase_cstr (q s : string) :
  contains_nocase q (Sqlite.cstr s) = true -> contains_nocase q s = true.
Proof.
  induction s as [|d s IH]; intros H; [exact H|].
  simpl contains_nocase.
  simpl Sqlite.cstr in H.
  destruct (Ascii.eqb d Ascii.zero) eqn:Hd.
  - simpl in H. rewrite orb_false_r in H.
    destruct q; [reflexivity | discriminate].
  - simpl contains_nocase in H.
    apply orb_prop in H. destruct H as [H|H].
    + assert (Hp : prefix_nocase q (Sqlite.cstr (String d s)) = true)
        by (simpl; now rewrite Hd).
      now rewrite (prefix_nocase_cstr q (String d s) Hp).
    + rewrite (IH H). apply orb_true_r.
Qed.

(** On a plain query the LIKE pattern of the search finds substrings
    only. *)
Lemma like_plain_contains (q text : string) :
  plain q = true ->
  Sqlite.like text ("%" ++ q ++ "%") = true ->
  contains_nocase q text = true.
Proof.
  intros Hq H. unfold Sqlite.like in H.
  simpl in H. rewrite cstr_plain in H by exact Hq.
  apply contains_nocase_cstr.
  now apply pattern_compare_plain_contains.
Qed.

Lemma joined_In (db : Database) (t : Tool.t) (c : ToolCategory.t)
    (s : Stage.t) :
  In (t, c, s) (joined db)
  <-> In t (tools db) /\ In c (tool_categories db) /\ In s (stages db)
      /\ Tool.category_id t = ToolCategory.id c
      /\ ToolCategory.stage_id c = Stage.id s.
Proof.
  unfold joined. rewrite in_flat_map. split.
  - intros [t' [Ht H]]. apply in_flat_map in H. destruct H as [c' [Hc H]].
    destruct (Z.eqb_spec (Tool.category_id t') (ToolCategory.id c'));
      [|contradiction].
    apply in_flat_map in H. destruct H as [s' [Hs H]].
    destruct (Z.eqb_spec (ToolCategory.stage_id c') (Stage.id s'));
      [|contradiction].
    destruct H as [H|[]]. injection H as -> -> ->. auto.
  - intros (Ht & Hc & Hs & Htc & Hcs).
    exists t. split; [exact Ht|].
    apply in_flat_map. exists c. split; [exact Hc|].
    rewrite Htc, Z.eqb_refl.
    apply in_flat_map. exists s. split; [exact Hs|].
    rewrite Hcs, Z.eqb_refl. now left.
Qed.

(** C3, as the code has it. [search_tools("")] returns the empty list; for
    every query q that holds no [%], no [_] and no NUL, every row returned
    by [search_tools(q)] is a tool of the database, joined with its category
    and the stage of that category, whose name or description contains q
    as a substring up to the case of ASCII letters. *)
Theorem search_tools_only_matching (db : Database) :
  search_tools db "" = []
  /\ forall (q : string) (r : SearchRow.t),
       plain q = true ->
       In r (search_tools db q) ->
       (exists t c s,
           In t (tools db) /\ In c (tool_categories db) /\ In s (stages db)
           /\ Tool.category_id t = ToolCategory.id c
           /\ ToolCategory.stage_id c = Stage.id s
           /\ r = search_row (t, c, s))
       /\ contains_nocase q (SearchRow.name r)
          || contains_nocase q (SearchRow.description r) = true.
Proof.
  split; [reflexivity|].
  intros q r Hq Hr. unfold search_tools in Hr.
  destruct (negb (PyStr.truthy q)); [contradiction|].
  apply in_map_iff in Hr. destruct Hr as [[[t c] s] [<- Hin]].
  rewrite order_by_In, filter_In in Hin. destruct Hin as [Hj Hlike].
  apply joined_In in Hj. split.
  - exists t, c, s. intuition.
  - simpl. apply orb_prop in Hlike. apply orb_true_iff.
    destruct Hlike as [H|H]; [left | right];
      now apply like_plain_contains.
Qed.

Lemma search_tools_only_matching_witness :
  plain "dmp" = true
  /\ In (SearchRow.mk 1 1 "DMPTool" "Writes plans"
           "Data management planning" "Plan" 2)
       (search_tools lifecycle_db "dmp")
  /\ contains_nocase "dmp" "DMPTool" || contains_nocase "dmp" "Writes plans"
     = true.
Proof.
  assert (Hq : plain "dmp" = true) by reflexivity.
  assert (Hr : In (SearchRow.mk 1 1 "DMPTool" "Writes plans"
                     "Data management planning" "Plan" 2)
                 (search_tools lifecycle_db "dmp"))
    by (simpl; now left).
  split; [exact Hq|]. split; [exact Hr|].
  destruct (search_tools_only_matching lifecycle_db) as [_ H].
  exact (proj2 (H "dmp" _ Hq Hr)).
Defined.

(** The query [_] returns a tool whose name and description hold no
    underscore: in the LIKE pattern it stands for any one character. *)
Lemma search_underscore_matches_any :
  search_tools lifecycle_db "_"
  = [SearchRow.mk 1 1 "DMPTool" "Writes plans" "Data management planning"
       "Plan" 2]
  /\ contains_nocase "_" "DMPTool" = false
  /\ contains_nocase "_" "Writes plans" = false.
Proof. repeat split. Qed.

(* ================================================================== *)
(** * The CSV import *)
(* ================================================================== *)

(** ** The database file is written at commit only *)

Lemma preserves_ret {A : Type} (a : A) : preserves_file (ret a).
Proof. intros conn. reflexivity. Qed.

Lemma preserves_raise {A : Type} (e : Exception) :
  preserves_file (@raise A e).
Proof. intros conn. reflexivity. Qed.

Lemma preserves_bind {A B : Type} (m : Sql A) (k : A -> Sql B) :
  preserves_file m -> (forall a, preserves_file (k a)) ->
  preserves_file (bind m k).
Proof.
  intros Hm Hk conn. unfold bind.
  specialize (Hm conn).
  destruct (m conn) as [[a|e] conn']; simpl in *.
  - now rewrite Hk.
  - exact Hm.
Qed.

Lemma preserves_for_each {A : Type} (xs : list A) (body : A -> Sql unit) :
  (forall x, preserves_file (body x)) -> preserves_file (for_each xs body).
Proof.
  intros Hbody. induction xs as [|x xs IH]; simpl.
  - apply preserves_ret.
  - apply preserves_bind; [apply Hbody | intros _; exact IH].
Qed.

Lemma preserves_strip (v : Value) : preserves_file (strip v).
Proof.
  destruct v; [apply preserves_ret | apply preserves_raise ..].
Qed.

Lemma preserves_import_tool (cid : Z) (category tool_name : string) :
  preserves_file (import_tool cid category tool_name).
Proof.
  unfold import_tool. destruct (PyStr.truthy _).
  - apply preserves_bind; [|intros; apply preserves_ret].
    intros conn. reflexivity.
  - apply preserves_ret.
Qed.

Lemma preserves_import_row (row : Series) : preserves_file (import_row row).
Proof.
  unfold import_row.
  repeat (apply preserves_bind; [apply preserves_strip | intros ?]).
  destruct (_ || _); [apply preserves_ret|].
  apply preserves_bind; [intros conn; reflexivity | intros cursor].
  destruct (fetchone cursor); [|apply preserves_ret].
  apply preserves_bind; [intros conn; reflexivity | intros _].
  apply preserves_for_each. intros x. apply preserves_import_tool.
Qed.

(** What the import leaves in the file is the outcome of the loop over the
    rows: its view when it ends, the former content when it raises. *)
Lemma import_tool_data_committed (db : Database) (df : DataFrame)
    (conn : SqliteConn) :
  for_each df import_row (connect db) = (Ok tt, conn) ->
  import_tool_data db (Ok df) = (view conn, None).
Proof.
  intros H. unfold import_tool_data, with_connection. now rewrite H.
Qed.

(** C2, as the code has it. When an exception is raised while the rows
    are imported, whatever was inserted before, [import_tool_data] catches
    and reports it and the database file is left with the content it had
    before the import: the inserted rows are rolled back. *)
Theorem failed_import_rolls_back (db : Database) (df : DataFrame)
    (e : Exception) (conn : SqliteConn) :
  for_each df import_row (connect db) = (Raise e, conn) ->
  import_tool_data db (Ok df) = (db, Some e).
Proof.
  intros H. unfold import_tool_data, with_connection. rewrite H. simpl.
  pose proof (preserves_for_each df import_row preserves_import_row
                (connect db)) as Hfile.
  rewrite H in Hfile. simpl in Hfile. now rewrite Hfile.
Qed.

Lemma failed_import_rolls_back_witness :
  for_each interrupted_csv import_row (connect collect_db)
  = (Raise AttributeError,
     snd (for_each interrupted_csv import_row (connect collect_db)))
  /\ import_tool_data collect_db (Ok interrupted_csv)
     = (collect_db, Some AttributeError).
Proof.
  assert (H : for_each interrupted_csv import_row (connect collect_db)
              = (Raise AttributeError,
                 snd (for_each interrupted_csv import_row
                        (connect collect_db))))
    by reflexivity.
  split.
  - exact H.
  - exact (failed_import_rolls_back collect_db interrupted_csv
             AttributeError _ H).
Defined.

(** The import of [interrupted_csv] raises after the first row has
    inserted a category and two tools; the exception is reported, and the
    file holds none of these rows afterwards. *)
Lemma partial_import_is_lost :
  fst (for_each interrupted_csv import_row (connect collect_db))
  = Raise AttributeError
  /\ tool_categories
       (view (snd (for_each interrupted_csv import_row (connect collect_db))))
     = [ToolCategory.mk 1 1 "Acquisition" "Tools that acquire data"]
  /\ List.length
       (tools
          (view
             (snd (for_each interrupted_csv import_row (connect collect_db)))))
     = 2%nat
  /\ snd (import_tool_data collect_db (Ok interrupted_csv))
     = Some AttributeError
  /\ tool_categories (fst (import_tool_data collect_db (Ok interrupted_csv)))
     = []
  /\ tools (fst (import_tool_data collect_db (Ok interrupted_csv))) = [].
Proof. repeat split. Qed.

(** ** What one row inserts *)

Lemma append_tools_app (cid : Z) (category : string) (table : list Tool.t)
    (names : list string) :
  exists added,
    append_tools cid category table names = (table ++ added)%list
    /\ map Tool.name added = names
    /\ Forall (fun t => Tool.category_id t = cid) added.
Proof.
  revert table. induction names as [|n names IH]; intros table; simpl.
  - exists []. rewrite app_nil_r. repeat split. constructor.
  - match goal with
    | |- context [append_tools cid category ?tbl names] =>
        destruct (IH tbl) as [added [Happ [Hnames Hcid]]]
    end.
    eexists (_ :: added). rewrite Happ, <- app_assoc. simpl.
    repeat split.
    + now rewrite Hnames.
    + constructor; [reflexivity | exact Hcid].
Qed.

Lemma import_tools_effect (cid : Z) (category : string)
    (pieces : list string) (conn : SqliteConn) :
  exists rowid,
    for_each pieces (import_tool cid category) conn
    = (Ok tt,
       {| file := file conn;
          view :=
            {| stages := stages (view conn);
               connections := connections (view conn);
               tool_categories := tool_categories (view conn);
               tools :=
                 append_tools cid category (tools (view conn))
                   (filter PyStr.truthy (map PyStr.strip pieces)) |};
          last_insert_rowid := rowid |}).
Proof.
  revert conn. induction pieces as [|p pieces IH]; intros conn.
  - exists (last_insert_rowid conn). destruct conn as [f [s c tc t] r].
    reflexivity.
  - simpl. unfold bind, import_tool at 1.
    destruct (PyStr.truthy (PyStr.strip p)) eqn:Hp; simpl.
    + match goal with
      | |- context [for_each pieces _ ?c] =>
          destruct (IH c) as [rowid Hrec]
      end.
      exists rowid. rewrite Hrec. reflexivity.
    + destruct (IH conn) as [rowid Hrec]. exists rowid. exact Hrec.
Qed.

(** A row with text in its four cells, whose stage name is that of a
    stage, inserts a category and then runs the loop over its examples with
    the [lastrowid] of the SELECT cursor. *)
Lemma import_row_matching (conn : SqliteConn) (row : Series)
    (stage category description examples : string) (stage_id : Z) :
  get row "RESEARCH DATA LIFECYCLE STAGE" (VStr "") = VStr stage ->
  get row "TOOL CATEGORY TYPE" (VStr "") = VStr category ->
  get row "DESCRIPTION (1 SENTENCE)" (VStr "") = VStr description ->
  get row "EXAMPLES" (VStr "") = VStr examples ->
  PyStr.truthy (PyStr.strip stage) = true ->
  PyStr.truthy (PyStr.strip category) = true ->
  hd_error
    (map Stage.id
       (filter (fun s => Stage.name s =? PyStr.strip stage)
          (stages (view conn))))
  = Some stage_id ->
  import_row row conn
  = for_each (PyStr.split "," (PyStr.strip examples))
      (import_tool (last_insert_rowid conn) (PyStr.strip category))
      (snd (insert_tool_category stage_id (PyStr.strip category)
              (PyStr.strip description) conn)).
Proof.
  intros Hs Hc Hd He Hstage Hcat Hsel.
  unfold import_row. rewrite Hs, Hc, Hd, He.
  cbn [strip]. unfold bind, ret. cbv beta iota.
  rewrite Hstage, Hcat. cbn [negb orb]. cbv iota.
  unfold select_stage_id, fetchone. cbn [fetched lastrowid].
  rewrite Hsel. reflexivity.
Qed.

(** Such a row appends one category row for the stage and one tool row
    per example name. The tool rows carry the connection's
    [last_insert_rowid] from before the category was inserted, not the id
    of the category. *)
Lemma import_row_effect (conn : SqliteConn) (row : Series)
    (stage category description examples : string) (stage_id : Z) :
  get row "RESEARCH DATA LIFECYCLE STAGE" (VStr "") = VStr stage ->
  get row "TOOL CATEGORY TYPE" (VStr "") = VStr category ->
  get row "DESCRIPTION (1 SENTENCE)" (VStr "") = VStr description ->
  get row "EXAMPLES" (VStr "") = VStr examples ->
  PyStr.truthy (PyStr.strip stage) = true ->
  PyStr.truthy (PyStr.strip category) = true ->
  hd_error
    (map Stage.id
       (filter (fun s => Stage.name s =? PyStr.strip stage)
          (stages (view conn))))
  = Some stage_id ->
  fst (import_row row conn) = Ok tt
  /\ tool_categories (view (snd (import_row row conn)))
     = (tool_categories (view conn)
        ++ [ToolCategory.mk
              (Sqlite.next_rowid
                 (map ToolCategory.id (tool_categories (view conn))))
              stage_id (PyStr.strip category) (PyStr.strip description)])%list
  /\ tools (view (snd (import_row row conn)))
     = append_tools (last_insert_rowid conn) (PyStr.strip category)
         (tools (view conn)) (example_names (PyStr.strip examples)).
Proof.
  intros Hs Hc Hd He Hstage Hcat Hsel.
  rewrite (import_row_matching conn row stage category description examples
             stage_id Hs Hc Hd He Hstage Hcat Hsel).
  match goal with
  | |- context [for_each ?ps (import_tool ?cid ?cat) ?c] =>
      destruct (import_tools_effect cid cat ps c) as [rowid Hrec];
      rewrite Hrec
  end.
  repeat split.
Qed.

(** A row with text in its four cells is skipped, without any insertion
    and without an exception, when its stage name or its category name is
    blank, or when no stage has its stage name. *)
Lemma import_row_skipped (conn : SqliteConn) (row : Series)
    (stage category description examples : string) :
  get row "RESEARCH DATA LIFECYCLE STAGE" (VStr "") = VStr stage ->
  get row "TOOL CATEGORY TYPE" (VStr "") = VStr category ->
  get row "DESCRIPTION (1 SENTENCE)" (VStr "") = VStr description ->
  get row "EXAMPLES" (VStr "") = VStr examples ->
  PyStr.strip stage = ""
  \/ PyStr.strip category = ""
  \/ (forall s, In s (stages (view conn)) ->
                Stage.name s <> PyStr.strip stage) ->
  import_row row conn = (Ok tt, conn).
Proof.
  intros Hs Hc Hd He Hskip.
  unfold import_row. rewrite Hs, Hc, Hd, He.
  cbn [strip]. unfold bind, ret. cbv beta iota.
  destruct (PyStr.truthy (PyStr.strip stage)) eqn:Hstage; [|reflexivity].
  destruct (PyStr.truthy (PyStr.strip category)) eqn:Hcat; [|reflexivity].
  destruct Hskip as [H|[H|H]].
  - rewrite H in Hstage. discriminate.
  - rewrite H in Hcat. discriminate.
  - cbn [negb orb]. cbv iota.
    unfold select_stage_id, fetchone. cbn [fetched lastrowid].
    assert (Hnil : filter (fun s => Stage.name s =? PyStr.strip stage)
                     (stages (view conn)) = []).
    { induction (stages (view conn)) as [|s l IH]; simpl; trivial.
      destruct (String.eqb_spec (Stage.name s) (PyStr.strip stage)) as [E|E].
      - exfalso. apply (H s); [now left | exact E].
      - apply IH. intros s' Hs'. apply H. now right. }
    rewrite Hnil. reflexivity.
Qed.

(** A column that the CSV lacks reads as the empty text. *)
Example missing_columns_are_skipped :
  import_tool_data collect_db (Ok [[("EXAMPLES", VStr "ToolA")]])
  = (collect_db, None).
Proof. reflexivity. Qed.

(** C1, evaluated where it fails. The row (Collect, Acquisition,
    "ToolA, ToolB") imported into a store that holds the stage Collect:
    one category row, with id 1, and two tool rows are inserted, but the
    tool rows carry the category_id 0, not the id of the category. *)
Theorem imported_tools_not_linked :
  import_tool_data collect_db (Ok [acquisition_row])
  = ({| stages := stages collect_db;
        connections := [];
        tool_categories :=
          [ToolCategory.mk 1 1 "Acquisition" "Tools that acquire data"];
        tools :=
          [Tool.mk 1 0 "ToolA" "Example tool for Acquisition";
           Tool.mk 2 0 "ToolB" "Example tool for Acquisition"] |},
     None).
Proof. reflexivity. Qed.

(** After such an import the tools are found under no category. *)
Example imported_tools_not_listed :
  load_tools (fst (import_tool_data collect_db (Ok [acquisition_row])))
    (Some 1%Z)
  = []
  /\ search_tools (fst (import_tool_data collect_db (Ok [acquisition_row])))
       "ToolA"
     = [].
Proof. split; reflexivity. Qed.

(** C9, evaluated where it fails. A row whose stage cell is empty in the
    CSV is not skipped: [.strip()] on its NaN raises AttributeError, which
    ends the import. *)
Theorem empty_stage_cell_raises :
  import_row empty_stage_row (connect collect_db)
  = (Raise AttributeError, connect collect_db)
  /\ import_tool_data collect_db (Ok [empty_stage_row])
     = (collect_db, Some AttributeError).
Proof. split; reflexivity. Qed.

(** The same holds for a row with a blank stage name when another of its
    cells is empty: the four cells are stripped before the names are
    looked at. *)
Example blank_stage_with_empty_cell_raises :
  import_tool_data collect_db
    (Ok [csv_row (VStr "  ") (VStr "Acquisition") VNaN (VStr "ToolA")])
  = (collect_db, Some AttributeError).
Proof. reflexivity. Qed.

(* ================================================================== *)
(** * The import as a whole *)
(* ================================================================== *)

Lemma text_row_cells (row : Series) :
  text_row row = true ->
  exists stage category description examples,
    get row "RESEARCH DATA LIFECYCLE STAGE" (VStr "") = VStr stage
    /\ get row "TOOL CATEGORY TYPE" (VStr "") = VStr category
    /\ get row "DESCRIPTION (1 SENTENCE)" (VStr "") = VStr description
    /\ get row "EXAMPLES" (VStr "") = VStr examples.
Proof.
  unfold text_row. intros H.
  apply andb_prop in H. destruct H as [H H4].
  apply andb_prop in H. destruct H as [H H3].
  apply andb_prop in H. destruct H as [H1 H2].
  destruct (get row "RESEARCH DATA LIFECYCLE STAGE" (VStr "")) as [s1| |];
    try discriminate.
  destruct (get row "TOOL CATEGORY TYPE" (VStr "")) as [s2| |];
    try discriminate.
  destruct (get row "DESCRIPTION (1 SENTENCE)" (VStr "")) as [s3| |];
    try discriminate.
  destruct (get row "EXAMPLES" (VStr "")) as [s4| |]; try discriminate.
  exists s1, s2, s3, s4. repeat split.
Qed.

(** A row with a cell that is not text raises, whatever the database
    holds, and leaves the connection as it is. *)
Lemma import_row_not_text (row : Series) (conn : SqliteConn) :
  text_row row = false -> import_row row conn = (Raise AttributeError, conn).
Proof.
  unfold text_row, import_row. intros H.
  destruct (get row "RESEARCH DATA LIFECYCLE STAGE" (VStr "")) as [s1| |];
    try reflexivity.
  destruct (get row "TOOL CATEGORY TYPE" (VStr "")) as [s2| |];
    try reflexivity.
  destruct (get row "DESCRIPTION (1 SENTENCE)" (VStr "")) as [s3| |];
    try reflexivity.
  destruct (get row "EXAMPLES" (VStr "")) as [s4| |];
    try reflexivity.
  discriminate.
Qed.

(** A row of text cells never raises; the view it leaves is
    [view_after_row]. *)
Lemma import_row_text (row : Series) (conn : SqliteConn) :
  text_row row = true ->
  exists rowid,
    import_row row conn
    = (Ok tt,
       {| file := file conn;
          view := view_after_row (last_insert_rowid conn) (view conn) row;
          last_insert_rowid := rowid |}).
Proof.
  intros Htext.
  destruct (text_row_cells row Htext)
    as (stage & category & description & examples & Hs & Hc & Hd & He).
  unfold view_after_row, row_insert, field, find_stage.
  rewrite Hs, Hc, Hd, He.
  destruct (PyStr.truthy (PyStr.strip stage)) eqn:Hstage.
  - destruct (PyStr.truthy (PyStr.strip category)) eqn:Hcat.
    + cbn [andb].
      destruct (hd_error
                  (map Stage.id
                     (filter (fun s => Stage.name s =? PyStr.strip stage)
                        (stages (view conn))))) as [stage_id|] eqn:Hsel.
      * rewrite (import_row_matching conn row stage category description
                   examples stage_id Hs Hc Hd He Hstage Hcat Hsel).
        match goal with
        | |- context [for_each ?ps (import_tool ?cid ?cat) ?c] =>
            destruct (import_tools_effect cid cat ps c) as [rowid Hrec]
        end.
        exists rowid. rewrite Hrec. reflexivity.
      * exists (last_insert_rowid conn).
        unfold import_row. rewrite Hs, Hc, Hd, He.
        cbn [strip]. unfold bind, ret. cbv beta iota.
        rewrite Hstage, Hcat. cbn [negb orb]. cbv iota.
        unfold select_stage_id, fetchone. cbn [fetched lastrowid].
        rewrite Hsel. destruct conn as [f v r]. reflexivity.
    + exists (last_insert_rowid conn). cbn [andb].
      unfold import_row. rewrite Hs, Hc, Hd, He.
      cbn [strip]. unfold bind, ret. cbv beta iota.
      rewrite Hstage, Hcat. destruct conn as [f v r]. reflexivity.
  - exists (last_insert_rowid conn). cbn [andb].
    unfold import_row. rewrite Hs, Hc, Hd, He.
    cbn [strip]. unfold bind, ret. cbv beta iota.
    rewrite Hstage. destruct conn as [f v r]. reflexivity.
Qed.

(** ** Fresh rowids *)

Lemma fold_left_max_ge (l : list Z) (a : Z) :
  (a <= fold_left Z.max l a)%Z
  /\ forall x, In x l -> (x <= fold_left Z.max l a)%Z.
Proof.
  revert a. induction l as [|y l IH]; intros a; simpl.
  - split; [lia | contradiction].
  - destruct (IH (Z.max a y)) as [Hge Hin]. split; [lia|].
    intros x [<-|Hx]; [lia | now apply Hin].
Qed.

Lemma next_rowid_above (ids : list Z) (i : Z) :
  In i ids -> (i < Sqlite.next_rowid ids)%Z.
Proof.
  destruct ids as [|a rest]; [contradiction|].
  unfold Sqlite.next_rowid.
  destruct (fold_left_max_ge rest a) as [Hge Hin].
  intros [<-|Hi]; [lia|]. specialize (Hin i Hi). lia.
Qed.

Lemma next_rowid_fresh (ids : list Z) : ~ In (Sqlite.next_rowid ids) ids.
Proof.
  intros H. apply next_rowid_above in H. lia.
Qed.

Lemma NoDup_snoc_fresh (ids : list Z) :
  NoDup ids -> NoDup (ids ++ [Sqlite.next_rowid ids]).
Proof.
  intros H.
  apply (Permutation_NoDup (Permutation_cons_append ids _)).
  constructor; [apply next_rowid_fresh | exact H].
Qed.

(** The tool rows that [append_tools] adds. *)
Lemma append_tools_added (cid : Z) (category : string) (table : list Tool.t)
    (names : list string) :
  exists added,
    append_tools cid category table names = (table ++ added)%list
    /\ map tool_payload added
       = map (fun name => (name, "Example tool for " ++ category)) names
    /\ Forall (fun t => Tool.category_id t = cid) added
    /\ (NoDup (map Tool.id table) ->
        NoDup (map Tool.id (table ++ added))).
Proof.
  revert table. induction names as [|n names IH]; intros table; simpl.
  - exists []. rewrite app_nil_r. repeat split; trivial.
  - match goal with
    | |- context [append_tools cid category ?tbl names] =>
        destruct (IH tbl) as [added [Happ [Hpay [Hcid Hdup]]]]
    end.
    eexists (_ :: added). rewrite Happ, <- app_assoc. simpl.
    split; [reflexivity|]. split; [now rewrite Hpay|].
    split; [constructor; [reflexivity | exact Hcid]|].
    intros Hnd.
    change (table ++ ?t :: added)%list with (table ++ [t] ++ added)%list.
    rewrite app_assoc. apply Hdup.
    rewrite map_app. simpl. now apply NoDup_snoc_fresh.
Qed.

(** What one row of text cells adds to the view. *)
Lemma view_after_row_adds (last : Z) (db : Database) (row : Series) :
  stages (view_after_row last db row) = stages db
  /\ connections (view_after_row last db row) = connections db
  /\ exists new_categories new_tools,
       tool_categories (view_after_row last db row)
       = (tool_categories db ++ new_categories)%list
       /\ map category_payload new_categories = category_of (stages db) row
       /\ tools (view_after_row last db row) = (tools db ++ new_tools)%list
       /\ map tool_payload new_tools = tools_of (stages db) row
       /\ Forall (fun t => Tool.category_id t = last) new_tools
       /\ (NoDup (map ToolCategory.id (tool_categories db)) ->
           NoDup (map ToolCategory.id
                    (tool_categories (view_after_row last db row))))
       /\ (NoDup (map Tool.id (tools db)) ->
           NoDup (map Tool.id (tools (view_after_row last db row)))).
Proof.
  unfold view_after_row, category_of, tools_of.
  destruct (row_insert (stages db) row)
    as [[[[stage_id category] description] names]|].
  - simpl. split; [reflexivity|]. split; [reflexivity|].
    destruct (append_tools_added last category (tools db) names)
      as [added [Happ [Hpay [Hcid Hdup]]]].
    eexists [_], added. rewrite Happ.
    repeat split; trivial.
    intros Hnd. rewrite map_app. simpl. now apply NoDup_snoc_fresh.
  - split; [reflexivity|]. split; [reflexivity|].
    exists [], []. rewrite !app_nil_r. repeat split; trivial.
Qed.

(** The loop over a CSV of text cells never raises; what it leaves is the
    former view with one category per inserting row and its tools
    appended. *)
Lemma import_rows_text (df : DataFrame) (conn : SqliteConn) :
  forallb text_row df = true ->
  exists conn',
    for_each df import_row conn = (Ok tt, conn')
    /\ file conn' = file conn
    /\ stages (view conn') = stages (view conn)
    /\ connections (view conn') = connections (view conn)
    /\ exists new_categories new_tools,
         tool_categories (view conn')
         = (tool_categories (view conn) ++ new_categories)%list
         /\ map category_payload new_categories
            = flat_map (category_of (stages (view conn))) df
         /\ tools (view conn') = (tools (view conn) ++ new_tools)%list
         /\ map tool_payload new_tools
            = flat_map (tools_of (stages (view conn))) df
         /\ (NoDup (map ToolCategory.id (tool_categories (view conn))) ->
             NoDup (map ToolCategory.id (tool_categories (view conn'))))
         /\ (NoDup (map Tool.id (tools (view conn))) ->
             NoDup (map Tool.id (tools (view conn')))).
Proof.
  revert conn. induction df as [|row df IH]; intros conn Htext.
  - exists conn. repeat split; trivial.
    exists [], []. rewrite !app_nil_r. repeat split; trivial.
  - simpl in Htext. apply andb_prop in Htext. destruct Htext as [Hrow Hdf].
    destruct (import_row_text row conn Hrow) as [rowid Hstep].
    simpl for_each. unfold bind. rewrite Hstep.
    match goal with
    | |- context [for_each df import_row ?c] =>
        destruct (IH c Hdf)
          as (conn' & Hrun & Hfile & Hst & Hco & nc & nt
              & Hc & Hcp & Ht & Htp & Hcn & Htn)
    end.
    cbn [view file] in Hfile, Hst, Hco, Hc, Hcp, Ht, Htp, Hcn, Htn.
    destruct (view_after_row_adds (last_insert_rowid conn) (view conn) row)
      as (Hst1 & Hco1 & nc1 & nt1 & Hc1 & Hcp1 & Ht1 & Htp1 & _
          & Hcn1 & Htn1).
    exists conn'. split; [exact Hrun|]. split; [exact Hfile|].
    split; [congruence|]. split; [congruence|].
    exists (nc1 ++ nc)%list, (nt1 ++ nt)%list.
    rewrite Hst1 in Hcp, Htp.
    split; [rewrite Hc, Hc1; now rewrite app_assoc|].
    split; [rewrite map_app, Hcp, Hcp1; reflexivity|].
    split; [rewrite Ht, Ht1; now rewrite app_assoc|].
    split; [rewrite map_app, Htp, Htp1; reflexivity|].
    split; auto.
Qed.

(** The loop over a CSV that has a row with a cell that is not text
    raises AttributeError. *)
Lemma import_rows_not_text (df : DataFrame) (conn : SqliteConn) :
  forallb text_row df = false ->
  fst (for_each df import_row conn) = Raise AttributeError.
Proof.
  revert conn. induction df as [|row df IH]; intros conn H;
    [discriminate|].
  simpl in H. simpl for_each. unfold bind.
  destruct (text_row row) eqn:Hrow.
  - destruct (import_row_text row conn Hrow) as [rowid Hstep].
    rewrite Hstep. apply IH. exact H.
  - now rewrite import_row_not_text.
Qed.

Lemma import_tool_data_not_text (db : Database) (df : DataFrame) :
  forallb text_row df = false ->
  import_tool_data db (Ok df) = (db, Some AttributeError).
Proof.
  intros H. unfold import_tool_data, with_connection.
  pose proof (import_rows_not_text df (connect db) H) as Hraise.
  pose proof (preserves_for_each df import_row preserves_import_row
                (connect db)) as Hfile.
  destruct (for_each df import_row (connect db)) as [[u|e] conn].
  - discriminate.
  - simpl in *. injection Hraise as ->. now rewrite Hfile.
Qed.

(** The import of a CSV of text cells, as a whole. *)
Lemma import_tool_data_text (db : Database) (df : DataFrame) :
  forallb text_row df = true ->
  exists new_categories new_tools,
    import_tool_data db (Ok df)
    = ({| stages := stages db;
          connections := connections db;
          tool_categories := tool_categories db ++ new_categories;
          tools := tools db ++ new_tools |},
       None)
    /\ map category_payload new_categories
       = flat_map (category_of (stages db)) df
    /\ map tool_payload new_tools = flat_map (tools_of (stages db)) df
    /\ (NoDup (map ToolCategory.id (tool_categories db)) ->
        NoDup (map ToolCategory.id (tool_categories db ++ new_categories)))
    /\ (NoDup (map Tool.id (tools db)) ->
        NoDup (map Tool.id (tools db ++ new_tools))).
Proof.
  intros Htext.
  destruct (import_rows_text df (connect db) Htext)
    as (conn' & Hrun & _ & Hst & Hco & nc & nt
        & Hc & Hcp & Ht & Htp & Hcn & Htn).
  cbn [connect view] in Hst, Hco, Hc, Hcp, Ht, Htp, Hcn, Htn.
  exists nc, nt.
  rewrite (import_tool_data_committed db df conn' Hrun).
  split.
  - rewrite <- Hst, <- Hco, <- Hc, <- Ht.
    destruct (view conn'); reflexivity.
  - rewrite Hc in Hcn. rewrite Ht in Htn. auto.
Qed.

(** X1. What an import reports is decided by the CSV alone: the
    exception of [pd.read_csv] when reading fails; AttributeError when the
    frame has a row with a cell that is not text in one of the four columns
    read; nothing otherwise. *)
Theorem import_reports_non_text_cells (db : Database)
    (csv : Result DataFrame) :
  snd (import_tool_data db csv)
  = match csv with
    | Raise e => Some e
    | Ok df => if forallb text_row df then None else Some AttributeError
    end.
Proof.
  destruct csv as [df|e]; [|reflexivity].
  destruct (forallb text_row df) eqn:Htext.
  - destruct (import_tool_data_text db df Htext) as (nc & nt & H & _).
    now rewrite H.
  - now rewrite import_tool_data_not_text.
Qed.

(** X2. Whatever the CSV holds and whether the import fails or not, as
    long as the tables have room for the rows it asks to insert, it leaves
    the stages and the connections as they are and only appends to the
    categories and to the tools: no existing row is changed or removed. *)
Theorem import_appends_only (db : Database) (csv : Result DataFrame) :
  (forall df, csv = Ok df -> import_has_room db df) ->
  stages (fst (import_tool_data db csv)) = stages db
  /\ connections (fst (import_tool_data db csv)) = connections db
  /\ exists new_categories new_tools,
       tool_categories (fst (import_tool_data db csv))
       = (tool_categories db ++ new_categories)%list
       /\ tools (fst (import_tool_data db csv))
          = (tools db ++ new_tools)%list.
Proof.
  intros _. destruct csv as [df|e].
  - destruct (forallb text_row df) eqn:Htext.
    + destruct (import_tool_data_text db df Htext) as (nc & nt & H & _).
      rewrite H. simpl. repeat split. now exists nc, nt.
    + rewrite import_tool_data_not_text by exact Htext. simpl.
      repeat split. exists [], []. now rewrite !app_nil_r.
  - simpl. repeat split. exists [], []. now rewrite !app_nil_r.
Qed.

Lemma import_appends_only_witness :
  import_has_room instruments_db [acquisition_row]
  /\ stages (fst (import_tool_data instruments_db (Ok [acquisition_row])))
     = stages instruments_db
  /\ exists new_categories new_tools,
       tool_categories
         (fst (import_tool_data instruments_db (Ok [acquisition_row])))
       = (tool_categories instruments_db ++ new_categories)%list
       /\ tools (fst (import_tool_data instruments_db (Ok [acquisition_row])))
          = (tools instruments_db ++ new_tools)%list.
Proof.
  assert (Hroom : import_has_room instruments_db [acquisition_row])
    by (split; unfold room, max_rowid; simpl; lia).
  split; [exact Hroom|].
  assert (H : forall df,
             Ok [acquisition_row] = Ok df ->
             import_has_room instruments_db df)
    by (intros df Hdf; injection Hdf as <-; exact Hroom).
  destruct (import_appends_only instruments_db (Ok [acquisition_row]) H)
    as (Hst & _ & Hnew).
  split; [exact Hst | exact Hnew].
Defined.

(** X3. As long as the tables have room for the rows the CSV asks to
    insert, the import keeps the ids of the categories, and those of the
    tools, pairwise distinct. *)
Theorem import_keeps_ids_distinct (db : Database) (csv : Result DataFrame) :
  (forall df, csv = Ok df -> import_has_room db df) ->
  NoDup (map ToolCategory.id (tool_categories db)) ->
  NoDup (map Tool.id (tools db)) ->
  NoDup (map ToolCategory.id
           (tool_categories (fst (import_tool_data db csv))))
  /\ NoDup (map Tool.id (tools (fst (import_tool_data db csv)))).
Proof.
  intros _ Hc Ht. destruct csv as [df|e].
  - destruct (forallb text_row df) eqn:Htext.
    + destruct (import_tool_data_text db df Htext)
        as (nc & nt & H & _ & _ & Hcn & Htn).
      rewrite H. simpl. auto.
    + rewrite import_tool_data_not_text by exact Htext. simpl. auto.
  - simpl. auto.
Qed.

Lemma import_keeps_ids_distinct_witness :
  import_has_room instruments_db [acquisition_row]
  /\ NoDup (map ToolCategory.id (tool_categories instruments_db))
  /\ NoDup (map Tool.id (tools instruments_db))
  /\ map ToolCategory.id
       (tool_categories
          (fst (import_tool_data instruments_db (Ok [acquisition_row]))))
     = [1; 2]%Z
  /\ map Tool.id
       (tools (fst (import_tool_data instruments_db (Ok [acquisition_row]))))
     = [1; 2; 3]%Z
  /\ NoDup (map ToolCategory.id
              (tool_categories
                 (fst (import_tool_data instruments_db
                         (Ok [acquisition_row])))))
  /\ NoDup (map Tool.id
              (tools
                 (fst (import_tool_data instruments_db
                         (Ok [acquisition_row]))))).
Proof.
  assert (Hroom : import_has_room instruments_db [acquisition_row])
    by (split; unfold room, max_rowid; simpl; lia).
  assert (H : forall df,
             Ok [acquisition_row] = Ok df ->
             import_has_room instruments_db df)
    by (intros df Hdf; injection Hdf as <-; exact Hroom).
  assert (Hc : NoDup (map ToolCategory.id (tool_categories instruments_db)))
    by (simpl; repeat constructor; simpl; tauto).
  assert (Ht : NoDup (map Tool.id (tools instruments_db)))
    by (simpl; repeat constructor; simpl; tauto).
  split; [exact Hroom|]. split; [exact Hc|]. split; [exact Ht|].
  split; [reflexivity|]. split; [reflexivity|].
  exact (import_keeps_ids_distinct instruments_db (Ok [acquisition_row])
           H Hc Ht).
Defined.

(** X4. As long as the tables have room for the rows it asks to insert,
    the import of a CSV whose cells are text appends, in the order of the
    CSV, one category per row with a non-blank stage and category name
    and a known stage (carrying the id of the first stage of that name and
    the stripped category name and description), and one tool per
    non-empty stripped example of such a row (carrying the stripped example
    and the description "Example tool for <category>"). *)
Theorem import_adds_per_row (db : Database) (df : DataFrame) :
  forallb text_row df = true ->
  import_has_room db df ->
  exists new_categories new_tools,
    import_tool_data db (Ok df)
    = ({| stages := stages db;
          connections := connections db;
          tool_categories := tool_categories db ++ new_categories;
          tools := tools db ++ new_tools |},
       None)
    /\ map category_payload new_categories
       = flat_map (category_of (stages db)) df
    /\ map tool_payload new_tools = flat_map (tools_of (stages db)) df.
Proof.
  intros Htext _.
  destruct (import_tool_data_text db df Htext)
    as (nc & nt & H & Hcp & Htp & _).
  exists nc, nt. auto.
Qed.

Lemma import_adds_per_row_witness :
  forallb text_row [acquisition_row] = true
  /\ import_has_room instruments_db [acquisition_row]
  /\ exists new_categories new_tools,
       import_tool_data instruments_db (Ok [acquisition_row])
       = ({| stages := stages instruments_db;
             connections := connections instruments_db;
             tool_categories :=
               tool_categories instruments_db ++ new_categories;
             tools := tools instruments_db ++ new_tools |},
          None)
       /\ map category_payload new_categories
          = [(1%Z, "Acquisition", "Tools that acquire data")]
       /\ map tool_payload new_tools
          = [("ToolA", "Example tool for Acquisition");
             ("ToolB", "Example tool for Acquisition")].
Proof.
  assert (H : forallb text_row [acquisition_row] = true) by reflexivity.
  assert (Hroom : import_has_room instruments_db [acquisition_row])
    by (split; unfold room, max_rowid; simpl; lia).
  split; [exact H|]. split; [exact Hroom|].
  exact (import_adds_per_row instruments_db [acquisition_row] H Hroom).
Defined.

(** X5. The import is not idempotent: as long as the tables have room
    for the rows of two imports, importing the same CSV of text cells a
    second time appends every category and every tool of the first import
    once more. *)
Theorem reimport_duplicates (db : Database) (df : DataFrame) :
  forallb text_row df = true ->
  import_has_room db (df ++ df)%list ->
  exists categories1 tools1 categories2 tools2,
    tool_categories (fst (import_tool_data db (Ok df)))
    = (tool_categories db ++ categories1)%list
    /\ tools (fst (import_tool_data db (Ok df))) = (tools db ++ tools1)%list
    /\ tool_categories
         (fst (import_tool_data (fst (import_tool_data db (Ok df))) (Ok df)))
       = (tool_categories db ++ categories1 ++ categories2)%list
    /\ tools
         (fst (import_tool_data (fst (import_tool_data db (Ok df))) (Ok df)))
       = (tools db ++ tools1 ++ tools2)%list
    /\ map category_payload categories2 = map category_payload categories1
    /\ map tool_payload tools2 = map tool_payload tools1.
Proof.
  intros Htext _.
  destruct (import_tool_data_text db df Htext)
    as (nc & nt & H & Hcp & Htp & _).
  rewrite H. cbn [fst].
  match goal with
  | |- context [import_tool_data ?d (Ok df)] =>
      destruct (import_tool_data_text d df Htext)
        as (nc' & nt' & H' & Hcp' & Htp' & _)
  end.
  cbn [stages tool_categories tools] in H', Hcp', Htp'.
  rewrite H'. cbn [fst tool_categories tools].
  exists nc, nt, nc', nt'.
  rewrite <- !app_assoc. repeat split; congruence.
Qed.

Lemma reimport_duplicates_witness :
  forallb text_row [acquisition_row] = true
  /\ import_has_room instruments_db
       ([acquisition_row] ++ [acquisition_row])%list
  /\ map category_payload
       (tool_categories
          (fst (import_tool_data
                  (fst (import_tool_data instruments_db
                          (Ok [acquisition_row])))
                  (Ok [acquisition_row]))))
     = [(1%Z, "Instruments", "Lab devices");
        (1%Z, "Acquisition", "Tools that acquire data");
        (1%Z, "Acquisition", "Tools that acquire data")].
Proof.
  assert (H : forallb text_row [acquisition_row] = true) by reflexivity.
  assert (Hroom : import_has_room instruments_db
                    ([acquisition_row] ++ [acquisition_row])%list)
    by (split; unfold room, max_rowid; simpl; lia).
  split; [exact H|]. split; [exact Hroom|].
  destruct (reimport_duplicates instruments_db [acquisition_row] H Hroom)
    as (c1 & t1 & c2 & t2 & _ & _ & _ & _ & _ & _).
  reflexivity.
Defined.

(** X6. A CSV all of whose rows have text cells and a blank stage name, a
    blank category name or a stage name that no stage has imports nothing
    and reports nothing. *)
Theorem import_of_skipped_rows (db : Database) (df : DataFrame) :
  forallb text_row df = true ->
  (forall row, In row df -> row_insert (stages db) row = None) ->
  import_tool_data db (Ok df) = (db, None).
Proof.
  intros Htext Hskip.
  destruct (import_tool_data_text db df Htext)
    as (nc & nt & H & Hcp & Htp & _).
  assert (Hc : flat_map (category_of (stages db)) df = []).
  { clear - Hskip. induction df as [|row df IH]; simpl; trivial.
    unfold category_of at 1. rewrite (Hskip row) by now left.
    apply IH. intros r Hr. apply Hskip. now right. }
  assert (Ht : flat_map (tools_of (stages db)) df = []).
  { clear - Hskip. induction df as [|row df IH]; simpl; trivial.
    unfold tools_of at 1. rewrite (Hskip row) by now left.
    apply IH. intros r Hr. apply Hskip. now right. }
  rewrite Hc in Hcp. rewrite Ht in Htp.
  apply map_eq_nil in Hcp, Htp. subst nc nt.
  rewrite H, !app_nil_r. destruct db; reflexivity.
Qed.

Lemma import_of_skipped_rows_witness :
  import_tool_data collect_db
    (Ok [csv_row (VStr "Publish") (VStr "Repositories") (VStr "") (VStr "X");
         csv_row (VStr "   ") (VStr "Acquisition") (VStr "") (VStr "Y");
         csv_row (VStr "Collect") (VStr "") (VStr "") (VStr "Z")])
  = (collect_db, None).
Proof.
  apply import_of_skipped_rows.
  - reflexivity.
  - intros row [<-|[<-|[<-|[]]]]; reflexivity.
Defined.

(** The import of a CSV with a single row that inserts, on the fresh
    connection of the import. *)
Lemma import_single_row (db : Database) (row : Series)
    (stage_id : Z) (category description : string) (names : list string) :
  text_row row = true ->
  row_insert (stages db) row = Some (stage_id, category, description, names) ->
  exists new_tools,
    fst (import_tool_data db (Ok [row]))
    = {| stages := stages db;
         connections := connections db;
         tool_categories :=
           tool_categories db
           ++ [ToolCategory.mk
                 (Sqlite.next_rowid (map ToolCategory.id (tool_categories db)))
                 stage_id category description];
         tools := tools db ++ new_tools |}
    /\ map Tool.name new_tools = names
    /\ Forall (fun t => Tool.category_id t = 0%Z) new_tools.
Proof.
  intros Htext Hins.
  destruct (import_row_text row (connect db) Htext) as [rowid Hstep].
  unfold import_tool_data, with_connection.
  simpl for_each. unfold bind. rewrite Hstep.
  cbn [ret commit file view fst connect last_insert_rowid].
  unfold view_after_row. rewrite Hins.
  destruct (append_tools_app 0 category (tools db) names)
    as [added [Happ [Hnames Hcid]]].
  exists added. rewrite Happ. repeat split; trivial.
Qed.

Lemma next_rowid_positive (ids : list Z) :
  Forall (fun i => (0 <= i)%Z) ids -> (0 < Sqlite.next_rowid ids)%Z.
Proof.
  intros Hpos. destruct ids as [|i rest]; [simpl; lia|].
  assert (Hin : In i (i :: rest)) by now left.
  apply next_rowid_above in Hin. inversion Hpos; subst. lia.
Qed.

(** X7. For a CSV with a single row that inserts, into tables that have
    room for its rows, the category inserted gets the rowid after the
    largest one in use, which is a valid rowid, and the tools inserted carry
    the category_id 0; when no category id of the database is negative,
    that is not the id of the category inserted. *)
Theorem single_row_tools_get_zero (db : Database) (row : Series)
    (stage_id : Z) (category description : string) (names : list string) :
  text_row row = true ->
  row_insert (stages db) row = Some (stage_id, category, description, names) ->
  import_has_room db [row] ->
  exists new_tools,
    fst (import_tool_data db (Ok [row]))
    = {| stages := stages db;
         connections := connections db;
         tool_categories :=
           tool_categories db
           ++ [ToolCategory.mk
                 (Sqlite.next_rowid (map ToolCategory.id (tool_categories db)))
                 stage_id category description];
         tools := tools db ++ new_tools |}
    /\ map Tool.name new_tools = names
    /\ Forall (fun t => Tool.category_id t = 0%Z) new_tools
    /\ (Sqlite.next_rowid (map ToolCategory.id (tool_categories db))
        <= max_rowid)%Z
    /\ (Forall (fun c => (0 <= ToolCategory.id c)%Z) (tool_categories db) ->
        Sqlite.next_rowid (map ToolCategory.id (tool_categories db)) <> 0%Z).
Proof.
  intros Htext Hins [Hroom _].
  destruct (import_single_row db row stage_id category description names
              Htext Hins) as (nt & Hdb & Hnames & Hzero).
  exists nt. repeat split; trivial.
  { unfold room in Hroom. cbn [flat_map] in Hroom.
    unfold category_of in Hroom. rewrite Hins in Hroom.
    cbn [app List.length] in Hroom.
    change (Z.of_nat 1) with 1%Z in Hroom. lia. }
  intros Hpos.
  assert (H : (0 < Sqlite.next_rowid
                     (map ToolCategory.id (tool_categories db)))%Z).
  { apply next_rowid_positive. rewrite Forall_map. exact Hpos. }
  lia.
Qed.

Lemma single_row_tools_get_zero_witness :
  text_row acquisition_row = true
  /\ row_insert (stages instruments_db) acquisition_row
     = Some (1%Z, "Acquisition", "Tools that acquire data",
             ["ToolA"; "ToolB"])
  /\ import_has_room instruments_db [acquisition_row]
  /\ map Tool.category_id
       (tools (fst (import_tool_data instruments_db (Ok [acquisition_row]))))
     = [1; 0; 0]%Z.
Proof.
  assert (Ht : text_row acquisition_row = true) by reflexivity.
  assert (Hi : row_insert (stages instruments_db) acquisition_row
               = Some (1%Z, "Acquisition", "Tools that acquire data",
                       ["ToolA"; "ToolB"])) by reflexivity.
  assert (Hroom : import_has_room instruments_db [acquisition_row])
    by (split; unfold room, max_rowid; simpl; lia).
  split; [exact Ht|]. split; [exact Hi|]. split; [exact Hroom|].
  destruct (single_row_tools_get_zero instruments_db acquisition_row _ _ _ _
              Ht Hi Hroom) as (nt & Hdb & _ & _ & _).
  reflexivity.
Defined.

(* ================================================================== *)
(** * More on the read queries *)
(* ================================================================== *)

Lemma StronglySorted_impl {A : Type} (R R' : A -> A -> Prop) (l : list A) :
  (forall a b, R a b -> R' a b) ->
  StronglySorted R l -> StronglySorted R' l.
Proof.
  intros HR H. induction H as [|a l Hl IH Hall]; constructor.
  - exact IH.
  - eapply Forall_impl; [|exact Hall]. intros b. apply HR.
Qed.

(** X8. [load_stages()] returns every stage of the table once, in
    ascending order of order_index. *)
Theorem load_stages_ordered (db : Database) :
  Permutation (load_stages db) (stages db)
  /\ StronglySorted
       (fun a b => (Stage.order_index a <= Stage.order_index b)%Z)
       (load_stages db).
Proof.
  split; [apply order_by_perm|].
  unfold load_stages.
  apply StronglySorted_impl with
    (R := fun a b =>
            (Stage.order_index a <=? Stage.order_index b)%Z = true).
  - intros a b. apply Z.leb_le.
  - apply (order_by_strongly_sorted
             (fun a b => (Stage.order_index a <=? Stage.order_index b)%Z)).
    + intros a b. destruct (Z.leb_spec (Stage.order_index a)
                              (Stage.order_index b)); [now left|].
      right. apply Z.leb_le. lia.
    + intros a b c Hab Hbc. apply Z.leb_le in Hab, Hbc.
      apply Z.leb_le. lia.
Qed.

(** ** The order of the search results *)






(** ** Completeness of the search *)

Lemma pattern_compare_percent_end (s : string) :
  Sqlite.pattern_compare "%" s = true.
Proof.
  induction s as [|d s IH]; rewrite pattern_compare_percent.
  - reflexivity.
  - rewrite IH. apply orb_true_r.
Qed.

Lemma prefix_pattern_compare (q s : string) :
  plain q = true ->
  prefix_nocase q s = true ->
  Sqlite.pattern_compare (q ++ "%") s = true.
Proof.
  revert s. induction q as [|c q IH]; intros s Hq Hp.
  - apply pattern_compare_percent_end.
  - simpl in Hq.
    apply andb_prop in Hq. destruct Hq as [Hq Hplain].
    apply andb_prop in Hq. destruct Hq as [Hq _].
    apply andb_prop in Hq. destruct Hq as [Hpct _].
    apply negb_true_iff in Hpct.
    destruct s as [|d s]; [discriminate|].
    simpl in Hp. apply andb_prop in Hp. destruct Hp as [Hcd Hp].
    simpl. rewrite Hpct, Hcd, orb_true_r. simpl. now apply IH.
Qed.

Lemma contains_pattern_compare (q s : string) :
  plain q = true ->
  contains_nocase q s = true ->
  Sqlite.pattern_compare (String "%" (q ++ "%")) s = true.
Proof.
  intros Hq. induction s as [|d s IH]; intros Hc;
    rewrite pattern_compare_percent; simpl in Hc;
    apply orb_prop in Hc; destruct Hc as [Hc|Hc]; try discriminate.
  - now rewrite (prefix_pattern_compare q "" Hq Hc).
  - now rewrite (prefix_pattern_compare q (String d s) Hq Hc).
  - rewrite (IH Hc). apply orb_true_r.
Qed.

Lemma cstr_nul_free (s : string) : nul_free s = true -> Sqlite.cstr s = s.
Proof.
  induction s as [|c s IH]; intros H; [reflexivity|].
  simpl in H. apply andb_prop in H. destruct H as [Hc Hs].
  apply negb_true_iff in Hc. simpl. rewrite Hc. now rewrite IH.
Qed.

Lemma contains_like (q text : string) :
  plain q = true -> nul_free text = true ->
  contains_nocase q text = true ->
  Sqlite.like text ("%" ++ q ++ "%") = true.
Proof.
  intros Hq Hn Hc. unfold Sqlite.like. simpl.
  rewrite cstr_plain by exact Hq. rewrite cstr_nul_free by exact Hn.
  now apply contains_pattern_compare.
Qed.

(** X10. [search_tools(q)] misses no tool: for a non-empty query without
    [%], [_] and NUL whose pattern [%q%] takes at most 50000 bytes in
    UTF-8, every tool whose category and the stage of that category exist,
    and whose name (or description) holds no NUL and contains q up to the
    case of ASCII letters, is among the rows returned. *)
Theorem search_tools_finds (db : Database) (q : string) (t : Tool.t)
    (c : ToolCategory.t) (s : Stage.t) :
  plain q = true -> q <> "" ->
  (utf8_length ("%" ++ q ++ "%") <= 50000)%Z ->
  In t (tools db) -> In c (tool_categories db) -> In s (stages db) ->
  Tool.category_id t = ToolCategory.id c ->
  ToolCategory.stage_id c = Stage.id s ->
  nul_free (Tool.name t) && contains_nocase q (Tool.name t)
  || nul_free (Tool.description t) && contains_nocase q (Tool.description t)
  = true ->
  In (search_row (t, c, s)) (search_tools db q).
Proof.
  intros Hq Hne _ Ht Hc Hs Htc Hcs Hm.
  unfold search_tools. destruct q as [|a q]; [congruence|].
  cbn [PyStr.truthy negb].
  apply in_map. rewrite order_by_In, filter_In. split.
  - apply joined_In. auto.
  - apply orb_true_iff. apply orb_prop in Hm.
    destruct Hm as [H|H]; apply andb_prop in H; destruct H as [Hn Hcn];
      [left | right]; now apply contains_like.
Qed.

Lemma search_tools_finds_witness :
  plain "PLANS" = true
  /\ (utf8_length ("%" ++ "PLANS" ++ "%") <= 50000)%Z
  /\ In (SearchRow.mk 1 1 "DMPTool" "Writes plans"
           "Data management planning" "Plan" 2)
       (search_tools lifecycle_db "PLANS").
Proof.
  assert (Hq : plain "PLANS" = true) by reflexivity.
  assert (Hlen : (utf8_length ("%" ++ "PLANS" ++ "%") <= 50000)%Z)
    by (simpl; lia).
  split; [exact Hq|]. split; [exact Hlen|].
  apply (search_tools_finds lifecycle_db "PLANS"
           (Tool.mk 1 1 "DMPTool" "Writes plans")
           (ToolCategory.mk 1 2 "Data management planning" "DMP tools")
           (Stage.mk 2 "Plan" "Planning the work" 2)).
  - exact Hq.
  - discriminate.
  - exact Hlen.
  - simpl. now left.
  - simpl. now left.
  - simpl. right. now left.
  - reflexivity.
  - reflexivity.
  - reflexivity.
Defined.

(** ** The case of the query *)

Lemma nat_of_tolower (c : ascii) :
  nat_of_ascii (Sqlite.tolower c)
  = if ((65 <=? nat_of_ascii c) && (nat_of_ascii c <=? 90))%nat
    then (nat_of_ascii c + 32)%nat else nat_of_ascii c.
Proof.
  unfold Sqlite.tolower.
  destruct ((65 <=? nat_of_ascii c) && (nat_of_ascii c <=? 90))%nat eqn:H;
    [|reflexivity].
  apply nat_ascii_embedding.
  apply andb_prop in H. destruct H as [_ H]. apply Nat.leb_le in H. lia.
Qed.

(** A character that is no ASCII letter is equal, up to case, to itself
    only. *)
Lemma char_eq_nocase_symbol (c c' x : ascii) :
  (nat_of_ascii x < 65 \/ 90 < nat_of_ascii x < 97)%nat ->
  Sqlite.char_eq_nocase c c' = true ->
  Ascii.eqb c x = Ascii.eqb c' x.
Proof.
  intros Hx H. unfold Sqlite.char_eq_nocase in H.
  apply Ascii.eqb_eq in H.
  apply (f_equal nat_of_ascii) in H. rewrite !nat_of_tolower in H.
  assert (Hcase : forall a : ascii,
             ((65 <=? nat_of_ascii a) && (nat_of_ascii a <=? 90))%nat = true ->
             (65 <= nat_of_ascii a <= 90)%nat).
  { intros a Ha. apply andb_prop in Ha. destruct Ha as [Ha Hb].
    apply Nat.leb_le in Ha, Hb. lia. }
  assert (Hnat : forall a b : ascii, nat_of_ascii a = nat_of_ascii b -> a = b).
  { intros a b Hab.
    rewrite <- (ascii_nat_embedding a), <- (ascii_nat_embedding b).
    now rewrite Hab. }
  destruct (Ascii.eqb_spec c x) as [->|Hc];
    destruct (Ascii.eqb_spec c' x) as [->|Hc']; trivial; exfalso.
  - apply Hc'. apply Hnat.
    destruct ((65 <=? nat_of_ascii x) && (nat_of_ascii x <=? 90))%nat eqn:E1;
      [apply Hcase in E1; lia|].
    destruct ((65 <=? nat_of_ascii c') && (nat_of_ascii c' <=? 90))%nat
      eqn:E2; [apply Hcase in E2; lia | now symmetry].
  - apply Hc. apply Hnat.
    destruct ((65 <=? nat_of_ascii x) && (nat_of_ascii x <=? 90))%nat eqn:E1;
      [apply Hcase in E1; lia|].
    destruct ((65 <=? nat_of_ascii c) && (nat_of_ascii c <=? 90))%nat
      eqn:E2; [apply Hcase in E2; lia | exact H].
Qed.

Lemma char_eq_nocase_left (c c' d : ascii) :
  Sqlite.char_eq_nocase c c' = true ->
  Sqlite.char_eq_nocase c d = Sqlite.char_eq_nocase c' d.
Proof.
  unfold Sqlite.char_eq_nocase. intros H.
  apply Ascii.eqb_eq in H. now rewrite H.
Qed.

Lemma pattern_compare_same_nocase (p p' : string) :
  same_nocase p p' = true ->
  forall s, Sqlite.pattern_compare p s = Sqlite.pattern_compare p' s.
Proof.
  revert p'. induction p as [|c p IH]; intros [|c' p'] H;
    try discriminate; [reflexivity|].
  simpl in H. apply andb_prop in H. destruct H as [Hc Hp].
  specialize (IH p' Hp).
  assert (Hpct : Ascii.eqb c "%" = Ascii.eqb c' "%")
    by (apply char_eq_nocase_symbol; [left; apply Nat.ltb_lt | exact Hc];
        reflexivity).
  assert (Hund : Ascii.eqb c "_" = Ascii.eqb c' "_")
    by (apply char_eq_nocase_symbol; [right | exact Hc];
        split; apply Nat.ltb_lt; reflexivity).
  destruct (Ascii.eqb_spec c "%") as [->|Hne].
  - symmetry in Hpct. apply Ascii.eqb_eq in Hpct. subst c'.
    intros s. induction s as [|d s IHs];
      rewrite (pattern_compare_percent p), (pattern_compare_percent p'), IH;
      [reflexivity|].
    now rewrite IHs.
  - intros s. simpl.
    apply Ascii.eqb_neq in Hne. rewrite Hne, <- Hpct.
    destruct s as [|d s]; [reflexivity|].
    now rewrite Hund, (char_eq_nocase_left c c' d Hc), IH.
Qed.

Lemma cstr_same_nocase (p p' : string) :
  same_nocase p p' = true ->
  same_nocase (Sqlite.cstr p) (Sqlite.cstr p') = true.
Proof.
  revert p'. induction p as [|c p IH]; intros [|c' p'] H;
    try discriminate; [reflexivity|].
  simpl in H. apply andb_prop in H. destruct H as [Hc Hp].
  simpl.
  assert (Hnul : Ascii.eqb c Ascii.zero = Ascii.eqb c' Ascii.zero)
    by (apply char_eq_nocase_symbol; [left; apply Nat.ltb_lt | exact Hc];
        reflexivity).
  rewrite <- Hnul.
  destruct (Ascii.eqb c Ascii.zero); [reflexivity|].
  simpl. rewrite Hc. simpl. now apply IH.
Qed.

Lemma search_pattern_same_nocase (q q' : string) :
  same_nocase q q' = true ->
  same_nocase ("%" ++ q ++ "%") ("%" ++ q' ++ "%") = true.
Proof.
  intros H. simpl.
  assert (Happ : same_nocase (q ++ "%") (q' ++ "%") = true).
  { revert q' H. induction q as [|c q IH]; intros [|c' q'] H;
      try discriminate; [reflexivity|].
    simpl in H. apply andb_prop in H. destruct H as [Hc Hq].
    simpl. rewrite Hc. simpl. now apply IH. }
  exact Happ.
Qed.

Lemma like_same_nocase (q q' text : string) :
  same_nocase q q' = true ->
  Sqlite.like text ("%" ++ q ++ "%") = Sqlite.like text ("%" ++ q' ++ "%").
Proof.
  intros H. unfold Sqlite.like.
  apply pattern_compare_same_nocase, cstr_same_nocase.
  now apply search_pattern_same_nocase.
Qed.

(** X11. The search does not look at the case of the ASCII letters of
    the query: two queries that differ in it only return the same rows. *)
Theorem search_tools_ignores_query_case (db : Database) (q q' : string) :
  same_nocase q q' = true -> search_tools db q = search_tools db q'.
Proof.
  intros H. unfold search_tools.
  assert (Ht : PyStr.truthy q = PyStr.truthy q')
    by (destruct q, q'; try discriminate; reflexivity).
  rewrite Ht. destruct (negb (PyStr.truthy q')); [reflexivity|].
  f_equal. f_equal. apply filter_ext. intros [[t c] s].
  now rewrite !(like_same_nocase q q' _ H).
Qed.

Lemma search_tools_ignores_query_case_witness :
  same_nocase "dmp" "DmP" = true
  /\ search_tools lifecycle_db "dmp" = search_tools lifecycle_db "DmP".
Proof.
  assert (H : same_nocase "dmp" "DmP" = true) by reflexivity.
  split; [exact H|].
  exact (search_tools_ignores_query_case lifecycle_db "dmp" "DmP" H).
Defined.

(* ================================================================== *)
(** * The figure as a whole *)
(* ================================================================== *)

Lemma length_x_positions (n : nat) : List.length (x_positions n) = n.
Proof. unfold x_positions, range. now rewrite !length_map, length_seq. Qed.

Lemma length_y_positions (n : nat) : List.length (y_positions n) = n.
Proof. unfold y_positions, range. now rewrite !length_map, length_seq. Qed.

(** An index below minus the length of the list is out of range. *)
Lemma index_below {A : Type} (l : list A) (i : Z) :
  (i < - Z.of_nat (List.length l))%Z -> index l i = Raise IndexError.
Proof.
  intros Hi. unfold index. cbv zeta.
  replace (i <? 0)%Z with true by (symmetry; apply Z.ltb_lt; lia).
  cbv iota.
  replace (i + Z.of_nat (List.length l) <? 0)%Z with true
    by (symmetry; apply Z.ltb_lt; lia).
  reflexivity.
Qed.

(** An index from minus the length up to the length reads an element. *)
Lemma index_within {A : Type} (l : list A) (i : Z) :
  (- Z.of_nat (List.length l) <= i < Z.of_nat (List.length l))%Z ->
  exists a, index l i = Ok a.
Proof.
  intros Hi.
  assert (Hnat : forall k : nat,
             (k < List.length l)%nat -> exists a, index l (Z.of_nat k) = Ok a).
  { intros k Hk. rewrite index_of_nat.
    destruct (nth_error l k) as [a|] eqn:E; [now exists a|].
    apply nth_error_None in E. lia. }
  destruct (Z.ltb_spec i 0) as [Hneg|Hpos].
  - rewrite index_negative by lia.
    replace (i + Z.of_nat (List.length l))%Z
      with (Z.of_nat (Z.to_nat (i + Z.of_nat (List.length l)))) by lia.
    apply Hnat. lia.
  - replace i with (Z.of_nat (Z.to_nat i)) by lia. apply Hnat. lia.
Qed.

Lemma stage_node_marker (n : nat) (selected : option Z) (i : nat)
    (stage : Stage.t) :
  (i < n)%nat ->
  stage_node (x_positions n) (y_positions n) selected (Z.of_nat i) stage
  = Ok (stage_marker selected i stage).
Proof.
  intros Hi. unfold stage_node.
  rewrite x_positions_at, y_positions_at by exact Hi.
  unfold stage_marker, is_selected, truthy.
  destruct selected as [id|]; reflexivity.
Qed.

Lemma add_stages_markers (n : nat) (selected : option Z)
    (stages : list Stage.t) (k : nat) :
  (k + List.length stages <= n)%nat ->
  add_stages (x_positions n) (y_positions n) selected (Z.of_nat k) stages
  = Ok (stage_markers selected k stages).
Proof.
  revert k. induction stages as [|s rest IH]; intros k Hk; simpl in *.
  - reflexivity.
  - rewrite stage_node_marker by lia. simpl.
    replace (Z.of_nat k + 1)%Z with (Z.of_nat (S k)) by lia.
    rewrite IH by lia. reflexivity.
Qed.

Lemma add_stages_all (selected : option Z) (stages : list Stage.t) :
  add_stages (x_positions (List.length stages))
    (y_positions (List.length stages)) selected 0 stages
  = Ok (stage_markers selected 0 stages).
Proof.
  apply (add_stages_markers (List.length stages) selected stages 0).
  simpl. lia.
Qed.

Lemma add_connections_valid (n : nat) (connections : list Connection.t) :
  Forall (fun conn => (1 <= Connection.from_stage_id conn)%Z
                      /\ (1 <= Connection.to_stage_id conn)%Z)
    connections ->
  add_connections n (x_positions n) (y_positions n) connections
  = Ok (map connection_line (filter (in_range n) connections)).
Proof.
  induction 1 as [|conn rest [Hfrom Hto] _ IH]; simpl; [reflexivity|].
  rewrite IH. unfold in_range.
  destruct (Z.leb_spec (Connection.from_stage_id conn) (Z.of_nat n))
    as [Hf|Hf];
    [destruct (Z.leb_spec (Connection.to_stage_id conn) (Z.of_nat n))
       as [Ht|Ht]|].
  - rewrite (connection_trace_in_bounds n conn
               (Z.to_nat (Connection.from_stage_id conn - 1))
               (Z.to_nat (Connection.to_stage_id conn - 1)))
      by lia.
    reflexivity.
  - rewrite connection_trace_above by lia. reflexivity.
  - rewrite connection_trace_above by lia. reflexivity.
Qed.

(** X12. When no connection names a stage id below 1,
    [create_lifecycle_visualization] raises nothing and returns, in this
    order: one line per connection whose two stage ids are at most the
    number N of stages, in the order of the connections, between the
    zig-zag positions of its two stages and dashed exactly for the type
    'alternative'; then one marker per stage, in the order of the stages,
    at the zig-zag position of its index, in the larger size and darker
    colour exactly when the selection is not 0 and is the id of the
    stage. *)
Theorem figure_of_positive_ids (stages : list Stage.t)
    (connections : list Connection.t) (selected_stage : option Z) :
  Forall (fun conn => (1 <= Connection.from_stage_id conn)%Z
                      /\ (1 <= Connection.to_stage_id conn)%Z)
    connections ->
  create_lifecycle_visualization stages connections selected_stage
  = Ok (map connection_line
          (filter (in_range (List.length stages)) connections)
        ++ stage_markers selected_stage 0 stages)%list.
Proof.
  intros Hpos. unfold create_lifecycle_visualization.
  rewrite add_connections_valid by exact Hpos.
  rewrite add_stages_all. reflexivity.
Qed.

Lemma figure_of_positive_ids_witness :
  create_lifecycle_visualization two_stages
    [Connection.mk 1 2 "alternative"; Connection.mk 2 3 "normal"] (Some 2%Z)
  = Ok [Lines [(-0.8)%float; (0.8)%float] [1; -1]%Z
          {| line_color := "rgba(120, 120, 120, 0.6)";
             line_width := 1;
             dash := Some "dash" |};
        Marker [(-0.8)%float] [1%Z] 25 "rgba(122, 193, 66, 0.8)"
          "Conceptualise" [1%Z] "Formulating the idea";
        Marker [(0.8)%float] [(-1)%Z] 30 "rgba(90, 159, 23, 1)"
          "Plan" [2%Z] "Planning the work"].
Proof.
  rewrite figure_of_positive_ids.
  - reflexivity.
  - repeat constructor; simpl; lia.
Defined.

(** ** When the layout raises *)

Lemma connection_trace_cases (n : nat) (conn : Connection.t) :
  if out_of_list n conn
  then connection_trace n (x_positions n) (y_positions n) conn
       = Raise IndexError
  else exists t,
         connection_trace n (x_positions n) (y_positions n) conn = Ok t.
Proof.
  unfold out_of_list, in_range, connection_trace.
  destruct (Z.leb_spec (Connection.from_stage_id conn) (Z.of_nat n))
    as [Hf|Hf];
    [destruct (Z.leb_spec (Connection.to_stage_id conn) (Z.of_nat n))
       as [Ht|Ht]|].
  - replace (Connection.from_stage_id conn - 1 <? Z.of_nat n)%Z with true
      by (symmetry; apply Z.ltb_lt; lia).
    replace (Connection.to_stage_id conn - 1 <? Z.of_nat n)%Z with true
      by (symmetry; apply Z.ltb_lt; lia).
    cbn [andb].
    destruct (Z.leb_spec (Connection.from_stage_id conn) (- Z.of_nat n))
      as [Hf'|Hf'].
    + cbn [orb].
      rewrite (index_below (x_positions n)
                 (Connection.from_stage_id conn - 1))
        by (rewrite length_x_positions; lia).
      reflexivity.
    + destruct (index_within (x_positions n)
                  (Connection.from_stage_id conn - 1)) as [x0 Hx0];
        [rewrite length_x_positions; lia|].
      destruct (index_within (y_positions n)
                  (Connection.from_stage_id conn - 1)) as [y0 Hy0];
        [rewrite length_y_positions; lia|].
      rewrite Hx0. cbn [bindR orb].
      destruct (Z.leb_spec (Connection.to_stage_id conn) (- Z.of_nat n))
        as [Ht'|Ht'].
      * rewrite (index_below (x_positions n)
                   (Connection.to_stage_id conn - 1))
          by (rewrite length_x_positions; lia).
        reflexivity.
      * destruct (index_within (x_positions n)
                    (Connection.to_stage_id conn - 1)) as [x1 Hx1];
          [rewrite length_x_positions; lia|].
        destruct (index_within (y_positions n)
                    (Connection.to_stage_id conn - 1)) as [y1 Hy1];
          [rewrite length_y_positions; lia|].
        rewrite Hx1, Hy0, Hy1. cbn [bindR]. eexists. reflexivity.
  - replace (Connection.to_stage_id conn - 1 <? Z.of_nat n)%Z with false
      by (symmetry; apply Z.ltb_ge; lia).
    rewrite !andb_false_r. cbn [andb]. exists None. reflexivity.
  - replace (Connection.from_stage_id conn - 1 <? Z.of_nat n)%Z with false
      by (symmetry; apply Z.ltb_ge; lia).
    cbn [andb]. exists None. reflexivity.
Qed.

Lemma add_connections_cases (n : nat) (connections : list Connection.t) :
  if existsb (out_of_list n) connections
  then add_connections n (x_positions n) (y_positions n) connections
       = Raise IndexError
  else exists fig,
         add_connections n (x_positions n) (y_positions n) connections
         = Ok fig.
Proof.
  induction connections as [|conn rest IH]; simpl.
  - now exists [].
  - pose proof (connection_trace_cases n conn) as Hc.
    destruct (out_of_list n conn); simpl.
    + now rewrite Hc.
    + destruct Hc as [t Ht]. rewrite Ht. simpl.
      destruct (existsb (out_of_list n) rest).
      * now rewrite IH.
      * destruct IH as [fig Hfig]. rewrite Hfig. simpl. eauto.
Qed.

(** X13. [create_lifecycle_visualization] raises exactly when some
    connection has both stage ids at most the number N of stages and one
    of them at most -N; the exception is IndexError. Otherwise it returns
    a figure. *)
Theorem figure_raises_on_low_ids (stages : list Stage.t)
    (connections : list Connection.t) (selected_stage : option Z) :
  if existsb (out_of_list (List.length stages)) connections
  then create_lifecycle_visualization stages connections selected_stage
       = Raise IndexError
  else exists fig,
         create_lifecycle_visualization stages connections selected_stage
         = Ok fig.
Proof.
  unfold create_lifecycle_visualization.
  pose proof (add_connections_cases (List.length stages) connections) as H.
  destruct (existsb (out_of_list (List.length stages)) connections).
  - now rewrite H.
  - destruct H as [lines Hlines]. rewrite Hlines, add_stages_all.
    simpl. eauto.
Qed.

(** ** Where the stages are placed *)






(* ================================================================== *)
(** * The search page *)
(* ================================================================== *)

Section DictAppend.
Context {A : Type}.

Lemma dict_append_keys_in (d : list (string * list A)) (k : string) (v : A) :
  In k (map fst d) -> map fst (dict_append d k v) = map fst d.
Proof.
  induction d as [|[k0 vs] d IH]; simpl; [contradiction|].
  intros Hin. destruct (String.eqb_spec k0 k) as [E|E]; [reflexivity|].
  simpl. f_equal. apply IH. destruct Hin; [contradiction | assumption].
Qed.

Lemma dict_append_keys_new (d : list (string * list A)) (k : string) (v : A) :
  ~ In k (map fst d) -> map fst (dict_append d k v) = (map fst d ++ [k])%list.
Proof.
  induction d as [|[k0 vs] d IH]; simpl; [reflexivity|].
  intros Hin. destruct (String.eqb_spec k0 k) as [E|E]; [tauto|].
  simpl. f_equal. apply IH. tauto.
Qed.

Lemma dict_append_In (d : list (string * list A)) (k : string) (v : A)
    (k' : string) (rows' : list A) :
  NoDup (map fst d) ->
  In (k', rows') (dict_append d k v) ->
  (k' <> k /\ In (k', rows') d)
  \/ (k' = k
      /\ ((exists old, In (k, old) d /\ rows' = (old ++ [v])%list)
          \/ (~ In k (map fst d) /\ rows' = [v]))).
Proof.
  induction d as [|[k0 vs] d IH]; simpl; intros Hnd Hin.
  - destruct Hin as [Hin|[]]. injection Hin as <- <-.
    right. split; [reflexivity|]. right. tauto.
  - inversion Hnd as [|? ? Hk0 Hnd']; subst.
    destruct (String.eqb_spec k0 k) as [E|E].
    + subst k0. destruct Hin as [Hin|Hin].
      * injection Hin as <- <-. right. split; [reflexivity|].
        left. exists vs. split; [now left | reflexivity].
      * left. split; [|now right].
        intros ->. apply Hk0. apply (in_map fst) in Hin. exact Hin.
    + destruct Hin as [Hin|Hin].
      * injection Hin as <- <-. left. split; [exact E | now left].
      * destruct (IH Hnd' Hin) as [[Hne Hd]|[-> [[old [Hold ->]]|[Hnew ->]]]].
        -- left. split; [exact Hne | now right].
        -- right. split; [reflexivity|]. left. exists old.
           split; [now right | reflexivity].
        -- right. split; [reflexivity|]. right. split; [|reflexivity].
           intros [H|H]; [exact (E H) | exact (Hnew H)].
Qed.

Lemma dict_append_concat (d : list (string * list A)) (k : string) (v : A) :
  Permutation (List.concat (map snd (dict_append d k v)))
    (List.concat (map snd d) ++ [v]).
Proof.
  induction d as [|[k0 vs] d IH]; simpl; [apply Permutation_refl|].
  destruct (k0 =? k); simpl.
  - rewrite <- !app_assoc. apply Permutation_app_head.
    apply Permutation_app_comm.
  - rewrite <- app_assoc. now apply Permutation_app_head.
Qed.

Variable key : A -> string.

Lemma filter_none (f : A -> bool) (l : list A) :
  (forall x, In x l -> f x = false) -> filter f l = [].
Proof.
  induction l as [|x l IH]; simpl; intros H; [reflexivity|].
  rewrite (H x) by now left. apply IH. intros y Hy. apply H. now right.
Qed.

Lemma grouped_step (d : list (string * list A)) (p : list A) (r : A) :
  grouped key d p -> grouped key (dict_append d (key r) r) (p ++ [r]).
Proof.
  intros (Hnd & Hrows & Hkeys).
  assert (Hk : In (key r) (map fst (dict_append d (key r) r))
               /\ (forall k, In k (map fst d) ->
                             In k (map fst (dict_append d (key r) r)))
               /\ NoDup (map fst (dict_append d (key r) r))).
  { destruct (in_dec string_dec (key r) (map fst d)) as [Hin|Hnew].
    - rewrite dict_append_keys_in by exact Hin. auto.
    - rewrite dict_append_keys_new by exact Hnew.
      split; [apply in_or_app; right; now left|].
      split; [intros k Hk; apply in_or_app; now left|].
      apply (Permutation_NoDup (Permutation_cons_append _ _)).
      now constructor. }
  destruct Hk as (Hself & Hold & Hnd').
  split; [exact Hnd'|]. split.
  - intros k rows Hin. rewrite filter_app. simpl.
    destruct (dict_append_In d (key r) r k rows Hnd Hin)
      as [[Hne Hd]|[-> [[old [Hd ->]]|[Hnew ->]]]].
    + destruct (Hrows k rows Hd) as [-> Hnonempty].
      destruct (String.eqb_spec (key r) k) as [E|E]; [congruence|].
      now rewrite app_nil_r.
    + destruct (Hrows (key r) old Hd) as [-> _].
      rewrite String.eqb_refl. split; [reflexivity|].
      intros H. apply app_eq_nil in H. destruct H as [_ H]. discriminate.
    + rewrite String.eqb_refl. split; [|discriminate].
      rewrite filter_none; [reflexivity|].
      intros x Hx. apply String.eqb_neq. intros E.
      apply Hnew. rewrite <- E. now apply Hkeys.
  - intros x Hx. apply in_app_or in Hx. destruct Hx as [Hx|[<-|[]]].
    + apply Hold. now apply Hkeys.
    + exact Hself.
Qed.

Lemma grouped_fold (rs : list A) (d : list (string * list A)) (p : list A) :
  grouped key d p ->
  grouped key (fold_left (fun d r => dict_append d (key r) r) rs d) (p ++ rs).
Proof.
  revert d p. induction rs as [|r rs IH]; intros d p H; simpl.
  - now rewrite app_nil_r.
  - change (r :: rs) with ([r] ++ rs)%list. rewrite app_assoc.
    apply IH. now apply grouped_step.
Qed.

Lemma concat_fold (rs : list A) (d : list (string * list A)) :
  Permutation
    (List.concat (map snd (fold_left (fun d r => dict_append d (key r) r) rs d)))
    (List.concat (map snd d) ++ rs).
Proof.
  revert d. induction rs as [|r rs IH]; intros d; simpl.
  - now rewrite app_nil_r.
  - eapply Permutation_trans; [apply IH|].
    change (r :: rs) with ([r] ++ rs)%list. rewrite app_assoc.
    apply Permutation_app_tail. apply dict_append_concat.
Qed.

End DictAppend.

(** X14. The grouping of the search page: the stage names of the groups
    are distinct, the group of a stage name holds exactly the results of
    that stage name, in their order, and is not empty, and every result
    has the group of its stage name. *)
Theorem results_by_stage_groups (results : list SearchRow.t) :
  NoDup (map fst (results_by_stage results))
  /\ (forall stage_name tools,
        In (stage_name, tools) (results_by_stage results) ->
        tools
        = filter (fun r => SearchRow.stage_name r =? stage_name) results
        /\ tools <> [])
  /\ (forall r,
        In r results ->
        In (SearchRow.stage_name r) (map fst (results_by_stage results))).
Proof.
  apply (grouped_fold SearchRow.stage_name results [] []).
  split; [constructor|]. split; intros; contradiction.
Qed.

Lemma frames_expanders (groups : list (string * list SearchRow.t)) :
  frames
    (map (fun group : string * list SearchRow.t =>
            let '(stage_name, tools) := group in
            Expander
              (stage_name ++ " (" ++ str (List.length tools) ++ " tools)")
              true (stage_frame tools))
       groups)
  = stage_frame (List.concat (map snd groups)).
Proof.
  unfold frames, stage_frame.
  induction groups as [|[k rows] groups IH]; simpl; [reflexivity|].
  rewrite map_app. f_equal. exact IH.
Qed.

(** X15. The search page shows every row of [search_tools(query)] once,
    as (tool name, category name, description), in the tables of its
    expanders, and shows no other row; each expander is open and its label
    gives a stage name and the number of rows of its table, which is not
    empty. *)
Theorem render_search_shows_results (db : Database) (query : string) :
  Permutation (frames (render_search db query))
    (stage_frame (search_tools db query))
  /\ forall label expanded dataframe,
       In (Expander label expanded dataframe) (render_search db query) ->
       expanded = true
       /\ dataframe <> []
       /\ exists stage_name,
            label
            = stage_name ++ " (" ++ str (List.length dataframe) ++ " tools)".
Proof.
  unfold render_search.
  destruct (PyStr.truthy query) eqn:Hq.
  - cbv zeta. destruct (search_tools db query) as [|r rs] eqn:Hres.
    + split; [apply Permutation_refl|].
      intros label expanded dataframe [H|[H|[]]]; discriminate.
    + split.
      * change (frames (TextInput _ _ :: Subheader _ :: ?l)) with (frames l).
        rewrite frames_expanders. unfold stage_frame.
        apply Permutation_map.
        apply (concat_fold SearchRow.stage_name (r :: rs) []).
      * intros label expanded dataframe [H|[H|H]]; try discriminate.
        apply in_map_iff in H. destruct H as [[k rows] [Heq Hin]].
        injection Heq as <- <- <-.
        destruct (results_by_stage_groups (r :: rs)) as (_ & Hrows & _).
        destruct (Hrows k rows Hin) as [_ Hne].
        split; [reflexivity|]. split.
        -- unfold stage_frame. intros H. apply map_eq_nil in H. auto.
        -- exists k. unfold stage_frame. now rewrite length_map.
  - unfold search_tools. rewrite Hq. simpl.
    split; [apply Permutation_refl|].
    intros label expanded dataframe [H|[]]; discriminate.
Qed.

(* ================================================================== *)
(** * How the operations fit together *)
(* ================================================================== *)

Lemma search_tools_joined (db : Database) (q : string) (r : SearchRow.t) :
  In r (search_tools db q) ->
  exists t c s, In (t, c, s) (joined db) /\ r = search_row (t, c, s).
Proof.
  unfold search_tools. destruct (negb (PyStr.truthy q)); [contradiction|].
  intros Hr. apply in_map_iff in Hr. destruct Hr as [[[t c] s] [<- Hin]].
  rewrite order_by_In, filter_In in Hin. destruct Hin as [Hj _].
  now exists t, c, s.
Qed.

(** X16. Browsing and searching follow the same links: for a stage and a
    category whose ids are not 0, a tool is listed by [load_tools] for a
    category that [load_tool_categories] lists for the stage exactly when
    (tool, category, stage) is a row of the join that [search_tools]
    searches. *)
Theorem browse_agrees_with_join (db : Database) (t : Tool.t)
    (c : ToolCategory.t) (s : Stage.t) :
  Stage.id s <> 0%Z -> ToolCategory.id c <> 0%Z -> In s (stages db) ->
  (In c (load_tool_categories db (Some (Stage.id s)))
   /\ In t (load_tools db (Some (ToolCategory.id c))))
  <-> In (t, c, s) (joined db).
Proof.
  intros Hs Hc Hin.
  rewrite load_tool_categories_nonzero, load_tools_nonzero by assumption.
  rewrite !order_by_In, !filter_In, !Z.eqb_eq, joined_In. tauto.
Qed.

Lemma browse_agrees_with_join_witness :
  In (ToolCategory.mk 1 2 "Data management planning" "DMP tools")
    (load_tool_categories lifecycle_db (Some 2%Z))
  /\ In (Tool.mk 1 1 "DMPTool" "Writes plans")
       (load_tools lifecycle_db (Some 1%Z)).
Proof.
  apply (browse_agrees_with_join lifecycle_db
           (Tool.mk 1 1 "DMPTool" "Writes plans")
           (ToolCategory.mk 1 2 "Data management planning" "DMP tools")
           (Stage.mk 2 "Plan" "Planning the work" 2)).
  - simpl. lia.
  - simpl. lia.
  - simpl. right. now left.
  - apply joined_In. simpl. intuition.
Defined.

(** X17. The tools that a single-row CSV imports are out of reach: when
    the category ids of the database are positive, every row that
    [search_tools] returns after the import, for any query, and every tool
    that [load_tools] lists for any category after the import, is a tool
    that the database held before the import. *)
Theorem imported_tools_out_of_reach (db : Database) (row : Series)
    (stage_id : Z) (category description : string) (names : list string) :
  text_row row = true ->
  row_insert (stages db) row = Some (stage_id, category, description, names) ->
  Forall (fun c => (0 < ToolCategory.id c)%Z) (tool_categories db) ->
  (forall q r,
      In r (search_tools (fst (import_tool_data db (Ok [row]))) q) ->
      exists t,
        In t (tools db)
        /\ SearchRow.id r = Tool.id t /\ SearchRow.name r = Tool.name t)
  /\ (forall c t,
        In c (tool_categories (fst (import_tool_data db (Ok [row])))) ->
        In t (load_tools (fst (import_tool_data db (Ok [row])))
                (Some (ToolCategory.id c))) ->
        In t (tools db)).
Proof.
  intros Htext Hins Hpos.
  destruct (import_single_row db row stage_id category description names
              Htext Hins) as (nt & Hdb & _ & Hzero).
  rewrite Hdb.
  assert (Hids : forall c,
             In c (tool_categories db
                   ++ [ToolCategory.mk
                         (Sqlite.next_rowid
                            (map ToolCategory.id (tool_categories db)))
                         stage_id category description])%list ->
             (0 < ToolCategory.id c)%Z).
  { intros c Hc. apply in_app_or in Hc. destruct Hc as [Hc|[<-|[]]].
    - rewrite Forall_forall in Hpos. now apply Hpos.
    - simpl. apply next_rowid_positive. rewrite Forall_map.
      eapply Forall_impl; [|exact Hpos]. simpl. intros; lia. }
  assert (Hold : forall t c,
             In t (tools db ++ nt)%list ->
             In c (tool_categories db
                   ++ [ToolCategory.mk
                         (Sqlite.next_rowid
                            (map ToolCategory.id (tool_categories db)))
                         stage_id category description])%list ->
             Tool.category_id t = ToolCategory.id c ->
             In t (tools db)).
  { intros t c Ht Hc Htc. apply in_app_or in Ht. destruct Ht as [Ht|Ht];
      [exact Ht|].
    rewrite Forall_forall in Hzero. specialize (Hzero t Ht).
    specialize (Hids c Hc). lia. }
  split.
  - intros q r Hr. apply search_tools_joined in Hr.
    destruct Hr as (t & c & s & Hj & ->).
    apply joined_In in Hj. cbn [tools tool_categories stages] in Hj.
    destruct Hj as (Ht & Hc & _ & Htc & _).
    exists t. split; [exact (Hold t c Ht Hc Htc)|]. split; reflexivity.
  - intros c t Hc Ht. cbn [tool_categories] in Hc.
    pose proof (Hids c Hc) as Hcid.
    rewrite load_tools_nonzero in Ht by lia.
    rewrite order_by_In, filter_In, Z.eqb_eq in Ht.
    cbn [tools] in Ht. destruct Ht as [Ht Htc].
    exact (Hold t c Ht Hc Htc).
Qed.

Lemma imported_tools_out_of_reach_witness :
  (forall q r,
      In r (search_tools
              (fst (import_tool_data collect_db (Ok [acquisition_row]))) q) ->
      exists t,
        In t (tools collect_db)
        /\ SearchRow.id r = Tool.id t /\ SearchRow.name r = Tool.name t)
  /\ (forall c t,
        In c (tool_categories
                (fst (import_tool_data collect_db (Ok [acquisition_row])))) ->
        In t (load_tools
                (fst (import_tool_data collect_db (Ok [acquisition_row])))
                (Some (ToolCategory.id c))) ->
        In t (tools collect_db)).
Proof.
  apply (imported_tools_out_of_reach collect_db acquisition_row 1
           "Acquisition" "Tools that acquire data" ["ToolA"; "ToolB"]).
  - reflexivity.
  - reflexivity.
  - constructor.
Defined.

Lemma results_by_stage_groups_witness :
  results_by_stage (search_tools lifecycle_db "dmp")
  = [("Plan", search_tools lifecycle_db "dmp")]
  /\ search_tools lifecycle_db "dmp"
     = filter (fun r => SearchRow.stage_name r =? "Plan")
         (search_tools lifecycle_db "dmp").
Proof.
  assert (Hg : results_by_stage (search_tools lifecycle_db "dmp")
               = [("Plan", search_tools lifecycle_db "dmp")])
    by reflexivity.
  split; [exact Hg|].
  destruct (results_by_stage_groups (search_tools lifecycle_db "dmp"))
    as (_ & Hrows & _).
  apply (Hrows "Plan"). rewrite Hg. now left.
Defined.

Lemma render_search_shows_results_witness :
  In (Expander "Plan (1 tools)" true
        [("DMPTool", "Data management planning", "Writes plans")])
    (render_search lifecycle_db "dmp")
  /\ exists stage_name,
       "Plan (1 tools)" = stage_name ++ " (" ++ str 1 ++ " tools)".
Proof.
  assert (Hin : In (Expander "Plan (1 tools)" true
                      [("DMPTool", "Data management planning",
                        "Writes plans")])
                  (render_search lifecycle_db "dmp"))
    by (simpl; tauto).
  split; [exact Hin|].
  destruct (render_search_shows_results lifecycle_db "dmp") as [_ H].
  exact (proj2 (proj2 (H _ _ _ Hin))).
Defined.

(* ================================================================== *)
(** * The unfiltered listings *)
(* ================================================================== *)

Lemma order_by_int_then_text {A : Type} (k : A -> Z) (name : A -> string)
    (l : list A) :
  ordered_by_int_then_text k name
    (Sqlite.order_by (Sqlite.by_int_then k (Sqlite.by_text name)) l).
Proof.
  unfold ordered_by_int_then_text.
  apply StronglySorted_impl with
    (R := fun a b =>
            Sqlite.by_int_then k (Sqlite.by_text name) a b = true).
  - intros a b. unfold Sqlite.by_int_then, Sqlite.by_text.
    destruct (Z.ltb_spec (k a) (k b)) as [Hlt|Hge]; [now left|].
    destruct (Z.eqb_spec (k a) (k b)) as [Heq|Hne]; [|discriminate].
    intros H. right. now split.
  - apply (order_by_strongly_sorted
             (Sqlite.by_int_then k (Sqlite.by_text name))).
    + intros a b. unfold Sqlite.by_int_then, Sqlite.by_text.
      destruct (Z.ltb_spec (k a) (k b)) as [Hab|Hab]; [now left|].
      destruct (Z.ltb_spec (k b) (k a)) as [Hba|Hba]; [now right|].
      assert (E : k a = k b) by lia. rewrite E, Z.eqb_refl.
      apply String.leb_total.
    + intros a b c. unfold Sqlite.by_int_then, Sqlite.by_text.
      intros Hab Hbc.
      destruct (Z.ltb_spec (k a) (k c)) as [Hac|Hac]; [reflexivity|].
      destruct (Z.ltb_spec (k a) (k b)) as [Lab|Lab];
        destruct (Z.ltb_spec (k b) (k c)) as [Lbc|Lbc];
        destruct (Z.eqb_spec (k a) (k b)) as [Eab|Eab];
        destruct (Z.eqb_spec (k b) (k c)) as [Ebc|Ebc];
        try discriminate; try lia.
      assert (Eac : k a = k c) by lia. rewrite Eac, Z.eqb_refl.
      now apply (string_leb_trans _ (name b)).
Qed.

(** X18. Without a filter ([None] or 0), [load_tool_categories] returns
    the categories in ascending order of stage_id, and of name within a
    stage; [load_tools] returns the tools in ascending order of
    category_id, and of name within a category. *)
Theorem unfiltered_listings_ordered (db : Database) (id : option Z) :
  truthy id = false ->
  ordered_by_int_then_text ToolCategory.stage_id ToolCategory.name
    (load_tool_categories db id)
  /\ ordered_by_int_then_text Tool.category_id Tool.name (load_tools db id).
Proof.
  intros H. apply truthy_false in H.
  destruct H as [-> | ->]; split; apply order_by_int_then_text.
Qed.

Lemma unfiltered_listings_ordered_witness :
  ordered_by_int_then_text ToolCategory.stage_id ToolCategory.name
    (load_tool_categories zero_based_db (Some 0%Z))
  /\ ordered_by_int_then_text Tool.category_id Tool.name
       (load_tools zero_based_db (Some 0%Z)).
Proof.
  apply (unfiltered_listings_ordered zero_based_db (Some 0%Z)).
  reflexivity.
Defined.
